(** * Model evaluation panel: metrics bundle, pending evaluations, drill-down

    A shallow embedding of [plugins/panels/model_evaluation.py].  Python
    dictionaries whose iteration order is observable are insertion-ordered
    association lists, accumulators keyed by label are [gmap]s, numpy label
    arrays are lists of strings, and Python floats are idealised as exact
    rationals ([Q]): every property below is about which items are counted
    and which branch is taken, never about rounding. *)

From Stdlib Require Import QArith.
From stdpp Require Import gmap strings list sorting.

Close Scope Q_scope.

(** ** Python prelude *)

Module Py.

(** Exceptions the panel code can raise. *)
Inductive exn := TypeError | ValueError | KeyError | AttributeError.

Inductive result (A : Type) :=
| Ok (a : A)
| Raise (e : exn).
Arguments Ok {A} a.
Arguments Raise {A} e.

Definition rbind {A B} (r : result A) (k : A → result B) : result B :=
  match r with
  | Ok a => k a
  | Raise e => Raise e
  end.

(** An insertion-ordered dictionary. *)
Definition dict (K V : Type) := list (K * V).

Section Dict.
Context {K V : Type} `{EqDecision K}.

Fixpoint dict_get (d : dict K V) (k : K) : option V :=
  match d with
  | [] => None
  | (k', v) :: d' => if decide (k' = k) then Some v else dict_get d' k
  end.

(** [d[k] = v]: overwrite in place, or append a new key at the end. *)
Fixpoint dict_set (d : dict K V) (k : K) (v : V) : dict K V :=
  match d with
  | [] => [(k, v)]
  | (k', v') :: d' =>
      if decide (k' = k) then (k', v) :: d' else (k', v') :: dict_set d' k v
  end.

(** [d.pop(k)] for a key known to be present; a no-op otherwise. *)
Fixpoint dict_pop (d : dict K V) (k : K) : dict K V :=
  match d with
  | [] => []
  | (k', v') :: d' =>
      if decide (k' = k) then d' else (k', v') :: dict_pop d' k
  end.

Definition dict_keys (d : dict K V) : list K := d.*1.
Definition dict_values (d : dict K V) : list V := d.*2.
Definition dict_mem (d : dict K V) (k : K) : bool :=
  bool_decide (is_Some (dict_get d k)).
End Dict.

(** [collections.Counter(xs)]: keys in order of first occurrence. *)
Definition Counter (xs : list string) : dict string nat :=
  foldl (λ d x, dict_set d x (S (default 0 (dict_get d x)))) [] xs.

(** [sorted(xs, key=key)]: the sort is stable, so on a total preorder of
    keys its result is determined; a stable insertion sort realises it. *)
Section Sorted.
Context {A : Type} (le : A → A → bool).

Fixpoint insert_sorted (x : A) (l : list A) : list A :=
  match l with
  | [] => [x]
  | y :: l' => if le x y then x :: y :: l' else y :: insert_sorted x l'
  end.

Definition sorted (l : list A) : list A := foldr insert_sorted [] l.

(** [sorted(xs, key=key, reverse=True)] keeps equal keys in their
    original order: reverse, sort, reverse. *)
Definition sorted_reverse (l : list A) : list A :=
  reverse (sorted (reverse l)).
End Sorted.

(** [f"{v}"] for a value that is a string or [None]. *)
Definition fmt (v : option string) : string :=
  match v with
  | Some s => s
  | None => "None"
  end.

Definition upper_ascii (c : Ascii.ascii) : Ascii.ascii :=
  let n := Ascii.nat_of_ascii c in
  if (97 <=? n)%nat && (n <=? 122)%nat then Ascii.ascii_of_nat (n - 32) else c.

Fixpoint upper (s : string) : string :=
  match s with
  | EmptyString => EmptyString
  | String c s' => String (upper_ascii c) (upper s')
  end.

End Py.
Import Py.

(** ** numpy on one-dimensional arrays *)

Module Np.

(** Broadcasting of two one-dimensional operands: equal lengths pair up,
    a length-one operand is repeated, anything else is a [ValueError]. *)
Definition broadcast {A B C} (f : A → B → C) (a : list A) (b : list B)
  : result (list C) :=
  if decide (length a = length b) then Ok (zip_with f a b)
  else match a, b with
       | [x], _ => Ok (map (f x) b)
       | _, [y] => Ok (map (λ x, f x y) a)
       | _, _ => Raise ValueError
       end.

(** [arr == scalar] and [arr != scalar]. *)
Definition eq_scalar (a : list string) (s : string) : list bool :=
  map (λ x, bool_decide (x = s)) a.
Definition ne_scalar (a : list string) (s : string) : list bool :=
  map (λ x, negb (bool_decide (x = s))) a.

(** [arr1 == arr2] and [mask1 & mask2]. *)
Definition eq_array (a b : list string) : result (list bool) :=
  broadcast (λ x y, bool_decide (x = y)) a b.
Definition and_ (a b : list bool) : result (list bool) :=
  broadcast andb a b.

Definition count_nonzero (m : list bool) : nat :=
  length (filter (λ b, b = true) m).

End Np.

(** ** Data model *)

Record EvaluationConfig := {
  type_ : string;
  method : option string;
  gt_field : string;
  pred_field : string;
}.

Record EvaluationInfo := {
  config : EvaluationConfig;
  (** the dictionary [info.serialize()] returns, as JSON text *)
  serialize : string;
}.

(** One row of [results.report()]. *)
Record ClassReport := {
  r_precision : option Q;
  r_recall : option Q;
  r_f1_score : option Q;
  r_support : option Q;
}.

(** The results object of one evaluation run.  [report], [metrics], [mAP]
    and [mAR] are computed by the evaluation backend and are taken as given;
    [mAP]/[mAR] raise for the types that do not define them. *)
Record Results := {
  classes : list string;
  ytrue : list string;
  ypred : list string;
  confs : option (list (option Q));
  ious : option (list (option Q));
  missing : string;
  report : gmap string ClassReport;
  metrics : dict string (option Q);
  mAP : result Q;
  mAR : result Q;
}.

(** Data-model invariant: one truth and one prediction per scored item. *)
Definition aligned (r : Results) : Prop := length (ytrue r) = length (ypred r).

Definition EVALUATION_TYPES_WITH_CONFIDENCE : list string :=
  ["detection"; "classification"].
Definition EVALUATION_TYPES_WITH_IOU : list string := ["detection"].
Definition SUPPORTED_EVALUATION_TYPES : list string :=
  ["classification"; "detection"; "segmentation"].
Definition CACHE_TTL : nat := 30 * 24 * 60 * 60.

(** The inner dictionary of [per_class_metrics[c]]: a key is present exactly
    when its field is [Some]. *)
Record PerClass := {
  confidence : option Q;
  iou : option Q;
  precision : option Q;
  recall : option Q;
  f1_score : option Q;
  support : option Q;
}.

#[global] Instance result_ret : MRet result := @Ok.
#[global] Instance result_bind : MBind result := λ A B k r, rbind r k.
#[global] Instance result_fmap : FMap result :=
  λ A B f r, rbind r (λ a, Ok (f a)).

(** ** MetricsAggregator *)

Definition Qnat (n : nat) : Q := inject_Z (Z.of_nat n).

(** The accumulation loop shared by [compute_avg_confs] and
    [compute_avg_ious]: [counts] and [sums] are [defaultdict]s keyed by the
    predicted label, a missing value adds [0.0] but is still counted. *)
Definition tally (ypred : list string) (vals : list (option Q))
  : gmap string nat * gmap string Q :=
  foldl (λ acc item,
           let '(counts, sums) := acc in
           let '(yp, conf) := item in
           (<[yp := S (default 0%nat (counts !! yp))]> counts,
            <[yp := Qplus (default 0%Q (sums !! yp)) (default 0%Q conf)]> sums))
        (∅, ∅) (zip ypred vals).

Definition averages (cls : list string) (t : gmap string nat * gmap string Q)
  : dict string Q :=
  foldl (λ avg c,
           let n := default 0%nat (t.1 !! c) in
           dict_set avg c
             (if (0 <? n)%nat then Qdiv (default 0%Q (t.2 !! c)) (Qnat n)
              else 0%Q))
        [] cls.

(** [zip(results.ypred, None)] is a [TypeError]. *)
Definition compute_avg_confs (results : Results) : result (dict string Q) :=
  match confs results with
  | Some cs => Ok (averages (classes results) (tally (ypred results) cs))
  | None => Raise TypeError
  end.

Definition compute_avg_ious (results : Results) : result (dict string Q) :=
  match ious results with
  | Some cs => Ok (averages (classes results) (tally (ypred results) cs))
  | None => Raise TypeError
  end.

(** Truthiness of a value that is [None] or a dictionary. *)
Definition truthy {K V} (d : option (dict K V)) : bool :=
  match d with
  | Some (_ :: _) => true
  | _ => false
  end.

(** [d[c]] under the guard [if d:]. *)
Definition guarded_item (d : option (dict string Q)) (c : string)
  : result (option Q) :=
  if truthy d then
    match dict_get (default [] d) c with
    | Some v => Ok (Some v)
    | None => Raise KeyError
    end
  else Ok None.

Fixpoint per_class_loop (avg_confs ious : option (dict string Q))
    (rep : gmap string ClassReport) (cs : list string)
    (per_class_metrics : dict string PerClass)
  : result (dict string PerClass) :=
  match cs with
  | [] => Ok per_class_metrics
  | c :: cs' =>
      let c_report := rep !! c in
      conf ← guarded_item avg_confs c;
      io ← guarded_item ious c;
      per_class_loop avg_confs ious rep cs'
        (dict_set per_class_metrics c
           {| confidence := conf;
              iou := io;
              precision := c_report ≫= r_precision;
              recall := c_report ≫= r_recall;
              f1_score := c_report ≫= r_f1_score;
              support := c_report ≫= r_support |})
  end.

Definition get_per_class_metrics (info : EvaluationInfo) (results : Results)
  : result (dict string PerClass) :=
  let evaluation_type := type_ (config info) in
  avg_confs ←
    (if bool_decide (evaluation_type ∈ EVALUATION_TYPES_WITH_CONFIDENCE)
     then Some <$> compute_avg_confs results else Ok None);
  ious ←
    (if bool_decide (evaluation_type ∈ EVALUATION_TYPES_WITH_IOU)
     then Some <$> compute_avg_ious results else Ok None);
  per_class_loop avg_confs ious (report results) (classes results) [].

(** [count] is bumped for every class, [total] only for the classes that
    carry a ["confidence"] key. *)
Definition get_avg_confidence (per_class_metrics : dict string PerClass)
  : option Q :=
  let '(count, total) :=
    foldl (λ acc m,
             let '(count, total) := acc in
             (S count,
              match confidence m with
              | Some c => Qplus total c
              | None => total
              end))
          (0%nat, 0%Q) (dict_values per_class_metrics) in
  if (0 <? count)%nat then Some (Qdiv total (Qnat count)) else None.

Definition counts3 : Type := option nat * option nat * option nat.

Definition get_tp_fp_fn (info : EvaluationInfo) (results : Results)
  : result counts3 :=
  if bool_decide (type_ (config info) = "classification")
     && bool_decide (method (config info) = Some "binary")
  then
    match classes results with
    | [neg_label; pos_label] =>
        tp ← Np.and_ (Np.eq_scalar (ytrue results) pos_label)
                     (Np.eq_scalar (ypred results) pos_label);
        fp ← Np.and_ (Np.ne_scalar (ytrue results) pos_label)
                     (Np.eq_scalar (ypred results) pos_label);
        fn ← Np.and_ (Np.eq_scalar (ytrue results) pos_label)
                     (Np.ne_scalar (ypred results) pos_label);
        Ok (Some (Np.count_nonzero tp), Some (Np.count_nonzero fp),
            Some (Np.count_nonzero fn))
    | _ => Raise ValueError
    end
  else if bool_decide (type_ (config info) = "detection") then
    tp ← Np.eq_array (ytrue results) (ypred results);
    Ok (Some (Np.count_nonzero tp),
        Some (Np.count_nonzero (Np.eq_scalar (ytrue results) (missing results))),
        Some (Np.count_nonzero (Np.eq_scalar (ypred results) (missing results))))
  else Ok (None, None, None).

Definition get_map (results : Results) : option Q :=
  match mAP results with
  | Ok v => Some v
  | Raise _ => None
  end.

Definition get_mar (results : Results) : option Q :=
  match mAR results with
  | Ok v => Some v
  | Raise _ => None
  end.

(** *** Confusion matrices *)

(** Number of scored items with ground truth [t] and prediction [p]. *)
Definition cell (results : Results) (t p : string) : nat :=
  length (filter (λ tp, tp.1 = t ∧ tp.2 = p)
                 (zip (ytrue results) (ypred results))).

(** Modelled from the spec: [results._confusion_matrix(classes=...,
    include_other=False, include_missing=True, tabulate_ids=False)], which
    belongs to the evaluation backend and is not part of the panel module.
    The matrix is computed over (truth x prediction) for the given class
    ordering ([results.classes] when none is given), with the missing
    sentinel as an explicit last row and column when the ordering does not
    already hold it, and without an "other" bucket: an item whose truth or
    prediction is outside the labels is in no cell.  Rows are ground truth,
    columns are predictions.  Returns the matrix and its labels. *)
Definition _confusion_matrix (results : Results) (cls : option (list string))
  : list (list nat) * list string :=
  let labels0 := default (classes results) cls in
  let labels :=
    if bool_decide (missing results ∈ labels0) then labels0
    else labels0 ++ [missing results] in
  (map (λ t, map (λ p, cell results t p) labels) labels, labels).

(** [Counter(results.ytrue)] without the missing sentinel. *)
Definition freq (results : Results) : dict string nat :=
  let f := Counter (ytrue results) in
  if dict_mem f (missing results) then dict_pop f (missing results) else f.

(** [freq.get] as a sort key; it is only applied to keys of [freq]. *)
Definition freq_get (results : Results) (c : string) : nat :=
  default 0%nat (dict_get (freq results) c).

Definition by_key {A} (key : A → nat) (a b : A) : bool :=
  (key a <=? key b)%nat.

(** The five class orderings handed to [_confusion_matrix]. *)
Definition default_classes (results : Results) : list string := classes results.
Definition az_classes (results : Results) : list string :=
  sorted String.leb (default_classes results).
Definition za_classes (results : Results) : list string :=
  sorted_reverse String.leb (default_classes results).
Definition mc_classes (results : Results) : list string :=
  sorted_reverse (by_key (freq_get results)) (dict_keys (freq results)).
Definition lc_classes (results : Results) : list string :=
  sorted (by_key (freq_get results)) (dict_keys (freq results)).

(** [matrix.max()] *)
Definition matrix_max (m : list (list nat)) : nat := max_list (concat m).
Definition matrix_sum (m : list (list nat)) : nat := sum_list (concat m).

(** One ordering of the bundle: labels, matrix and derived colorscale. *)
Record ConfusionMatrix (colorscale : Type) := {
  cm_classes : list string;
  cm_matrix : list (list nat);
  cm_colorscale : colorscale;
}.
Arguments cm_classes {colorscale} _.
Arguments cm_matrix {colorscale} _.
Arguments cm_colorscale {colorscale} _.

Record ConfusionMatrices (colorscale : Type) := {
  cm_default : ConfusionMatrix colorscale;
  cm_az : ConfusionMatrix colorscale;
  cm_za : ConfusionMatrix colorscale;
  cm_mc : ConfusionMatrix colorscale;
  cm_lc : ConfusionMatrix colorscale;
}.
Arguments cm_default {colorscale} _.
Arguments cm_az {colorscale} _.
Arguments cm_za {colorscale} _.
Arguments cm_mc {colorscale} _.
Arguments cm_lc {colorscale} _.

Section ConfusionMatrices.
(** [fiftyone.core.plots.plotly._to_log_colorscale], an external utility. *)
Context {colorscale : Type} (_to_log_colorscale : string → nat → colorscale).

Definition get_confusion_matrix_colorscale (matrix : list (list nat))
  : colorscale :=
  _to_log_colorscale "oranges" (matrix_max matrix).

Definition ordered_matrix (results : Results) (cls : option (list string))
  : ConfusionMatrix colorscale :=
  let '(matrix, labels) := _confusion_matrix results cls in
  {| cm_classes := labels;
     cm_matrix := matrix;
     cm_colorscale := get_confusion_matrix_colorscale matrix |}.

Definition get_confusion_matrices (results : Results)
  : ConfusionMatrices colorscale :=
  {| cm_default := ordered_matrix results None;
     cm_az := ordered_matrix results (Some (az_classes results));
     cm_za := ordered_matrix results (Some (za_classes results));
     cm_mc := ordered_matrix results (Some (mc_classes results));
     cm_lc := ordered_matrix results (Some (lc_classes results)) |}.
End ConfusionMatrices.

(** ** Panel context *)

Definition STORE_NAME : string := "model_evaluation_panel_builtin".

Definition STATUS_LABELS : dict string string :=
  [("needs_review", "needs review");
   ("in_review", "in review");
   ("reviewed", "reviewed")].

(** A pending-evaluation record: the dictionary [{"eval_key": ..}] with an
    optional ["doc_id"] entry. *)
Record Pending := {
  eval_key : option string;
  doc_id : option string;
}.

#[global] Instance Pending_eq_dec : EqDecision Pending.
Proof. solve_decision. Defined.

(** [ctx.panel.get_state("view") or {}], read with [.get]. *)
Record ViewState := {
  v_key : option string;
  v_id : option string;
  v_compareKey : option string;
}.

(** [ctx.params.get("options", {})] *)
Record Options := {
  o_key : option string;
  o_x : option string;
  o_y : option string;
  o_field : option string;
}.

(** [ctx.params]; [None] is an absent entry, a present entry is a string. *)
Record Params := {
  p_status : option string;
  p_key : option string;
  p_id : option string;
  p_type : option string;
  p_options : Options;
}.

(** [dataset._doc.evaluations[key]]: its id and the truthiness of its
    [results]. *)
Record EvalDoc := {
  e_id : string;
  e_results : bool;
}.

Definition MaskTargets : Type := dict Z string.

(** The operations of the dataset collaborator the panel invokes. *)
Record Dataset := {
  dataset_id : string;
  list_evaluations : list string;
  doc_evaluations : gmap string EvalDoc;
  get_evaluation_info : option string → result EvaluationInfo;
  load_evaluation_results : option string → result Results;
  mask_targets : gmap string MaskTargets;
  default_mask_targets : MaskTargets;
  (** second component of [_get_label_field_path(field)] *)
  label_root : string → string;
}.

Record Request := {
  params : Params;
  dataset : Dataset;
}.

(** *** The predicate language handed to the dataset *)

Inductive expr :=
| F (path : option string)
| Eq (e : expr) (v : option string)
| Or (a b : expr)
| And (a b : expr)
| LengthGt0 (e : expr).

Inductive stage :=
| Match (e : expr)
| FilterLabels (field : string) (filter : expr) (only_matches : bool).

(** A view is the evaluation view followed by these stages, in order. *)
Definition View : Type := list stage.

Definition get_permissions : dict string bool :=
  [("can_evaluate", true); ("can_edit_note", true); ("can_edit_status", true)].

Definition can_evaluate : bool :=
  default false (dict_get get_permissions "can_evaluate").
Definition can_edit_note : bool :=
  default false (dict_get get_permissions "can_edit_note").
Definition can_edit_status : bool :=
  default false (dict_get get_permissions "can_edit_status").

Definition get_evaluation_id (d : Dataset) (key : string) : option string :=
  e_id <$> doc_evaluations d !! key.

Definition has_evaluation_results (d : Dataset) (key : string) : bool :=
  match doc_evaluations d !! key with
  | Some doc => e_results doc
  | None => false
  end.

Definition get_mask_targets (d : Dataset) (gt : string) : option MaskTargets :=
  match mask_targets d !! gt with
  | Some ((_ :: _) as m) => Some m
  | _ =>
      match default_mask_targets d with
      | (_ :: _) as m => Some m
      | [] => None
      end
  end.

(** *** Drill-down predicates ([load_view], after the fields are resolved) *)

Definition label_is (field : string) (v : option string) : expr :=
  Eq (F (Some (field +:+ ".label"))) v.

Definition or_label (e : expr) (field : option string) (x : option string)
  : expr :=
  match field with
  | Some f => Or e (label_is f x)
  | None => e
  end.

Definition classification_view (info : EvaluationInfo) (eval_key : option string)
    (gt_field2 pred_field2 : option string)
    (view_type x y field : option string) : result (option View) :=
  let gt := gt_field (config info) in
  let pred := pred_field (config info) in
  if bool_decide (view_type = Some "class") then
    let e := Or (label_is gt x) (label_is pred x) in
    Ok (Some [Match (or_label (or_label e gt_field2 x) pred_field2 x)])
  else if bool_decide (view_type = Some "matrix") then
    Ok (Some [Match (And (label_is gt y) (label_is pred x))])
  else if bool_decide (view_type = Some "field") then
    if bool_decide (method (config info) = Some "binary") then
      match field with
      | Some f => Ok (Some [Match (Eq (F (Some (fmt eval_key))) (Some (upper f)))])
      | None => Raise AttributeError
      end
    else Ok (Some [Match (Eq (F (Some (fmt eval_key))) field)])
  else Ok None.

Definition or_filtered (root : string → string) (acc : View * expr)
    (field : option string) (x : option string) : View * expr :=
  match field with
  | Some f =>
      (acc.1 ++ [FilterLabels f (Eq (F (Some "label")) x) false],
       Or acc.2 (LengthGt0 (F (Some (root f)))))
  | None => acc
  end.

Definition detection_view (info : EvaluationInfo) (eval_key : option string)
    (gt_field2 pred_field2 : option string) (root : string → string)
    (missing : string) (view_type x y field : option string)
  : result (option View) :=
  let gt := gt_field (config info) in
  let pred := pred_field (config info) in
  let gt_root := root gt in
  let pred_root := root pred in
  let label v := Eq (F (Some "label")) v in
  if bool_decide (view_type = Some "class") then
    let v0 := [FilterLabels gt (label x) false;
               FilterLabels pred (label x) false] in
    let e0 := Or (LengthGt0 (F (Some gt_root))) (LengthGt0 (F (Some pred_root))) in
    let '(v, e) := or_filtered root (or_filtered root (v0, e0) gt_field2 x)
                               pred_field2 x in
    Ok (Some (v ++ [Match e]))
  else if bool_decide (view_type = Some "matrix") then
    if bool_decide (y = Some missing) then
      Ok (Some [FilterLabels pred (And (label x) (Eq (F eval_key) (Some "fp"))) true])
    else if bool_decide (x = Some missing) then
      Ok (Some [FilterLabels gt (And (label y) (Eq (F eval_key) (Some "fn"))) true])
    else
      Ok (Some [FilterLabels gt (label y) false;
                FilterLabels pred (label x) false;
                Match (And (LengthGt0 (F (Some gt_root)))
                           (LengthGt0 (F (Some pred_root))))])
  else if bool_decide (view_type = Some "field") then
    if bool_decide (field = Some "tp") then
      Ok (Some [FilterLabels gt (Eq (F eval_key) field) false;
                FilterLabels pred (Eq (F eval_key) field) true])
    else if bool_decide (field = Some "fn") then
      Ok (Some [FilterLabels gt (Eq (F eval_key) field) true])
    else
      Ok (Some [FilterLabels pred (Eq (F eval_key) field) true])
  else Ok None.

(** ** The panel handlers *)

(** [evaluation_data], the cached metrics bundle. *)
Record EvaluationData (colorscale : Type) := {
  ed_metrics : dict string (option Q);
  ed_info : string;
  ed_confusion_matrices : ConfusionMatrices colorscale;
  ed_per_class_metrics : dict string PerClass;
  ed_mask_targets : option MaskTargets;
}.
Arguments ed_metrics {colorscale} _.
Arguments ed_info {colorscale} _.
Arguments ed_confusion_matrices {colorscale} _.
Arguments ed_per_class_metrics {colorscale} _.
Arguments ed_mask_targets {colorscale} _.

(** The execution store, one typed slot per key the panel uses.  The slots
    ["statuses"] and ["notes"] map evaluation ids to values, the slot
    ["pending_evaluations"] maps dataset ids to lists, and every other key
    is an evaluation id holding a bundle.  An absent slot reads as [None]. *)
Record Store (colorscale : Type) := {
  statuses : option (gmap (option string) (option string));
  notes : option (gmap (option string) (option string));
  pending_evaluations : option (gmap string (list Pending));
  cache : gmap (option string) (EvaluationData colorscale);
}.
Arguments statuses {colorscale} _.
Arguments notes {colorscale} _.
Arguments pending_evaluations {colorscale} _.
Arguments cache {colorscale} _.

(** What a handler publishes with [ctx.panel.set_data]. *)
Inductive data (colorscale : Type) :=
| DStatuses (m : gmap (option string) (option string))
| DPending (l : list Pending)
| DEvaluation (d : EvaluationData colorscale)
| DError (error info : string).
Arguments DStatuses {colorscale} m.
Arguments DPending {colorscale} l.
Arguments DEvaluation {colorscale} d.
Arguments DError {colorscale} error info.

(** Observable effects, in the order they happen. *)
Inductive event (colorscale : Type) :=
| Notify (message variant : string)
| StoreSet (key : option string) (ttl : option nat)
| SetData (key : string) (value : data colorscale)
| SetState (key : string)
| GetEvaluationInfo (key : option string)
| LoadEvaluationResults (key : option string)
| LoadEvaluationView (key : option string)
| SetView (view : View)
| ClearView.
Arguments Notify {colorscale} message variant.
Arguments StoreSet {colorscale} key ttl.
Arguments SetData {colorscale} key value.
Arguments SetState {colorscale} key.
Arguments GetEvaluationInfo {colorscale} key.
Arguments LoadEvaluationResults {colorscale} key.
Arguments LoadEvaluationView {colorscale} key.
Arguments SetView {colorscale} view.
Arguments ClearView {colorscale}.

(** Everything a handler can change: the store, the panel state and the
    effects emitted so far. *)
Record World (colorscale : Type) := {
  store : Store colorscale;
  st_view : ViewState;
  st_missing : option string;
  trace : list (event colorscale);
}.
Arguments store {colorscale} _.
Arguments st_view {colorscale} _.
Arguments st_missing {colorscale} _.
Arguments trace {colorscale} _.

(** Handlers run in a state monad over [World] that can raise; a raise
    keeps the changes made before it. *)
Definition M (colorscale A : Type) : Type :=
  World colorscale → result A * World colorscale.

#[global] Instance M_ret {colorscale} : MRet (M colorscale) :=
  λ A a w, (Ok a, w).
#[global] Instance M_bind {colorscale} : MBind (M colorscale) :=
  λ A B k m w,
    match m w with
    | (Ok a, w') => k a w'
    | (Raise e, w') => (Raise e, w')
    end.

Section Panel.
Context {colorscale : Type} (_to_log_colorscale : string → nat → colorscale).
(** Module-level flag computed from the process environment. *)
Context (ENABLE_CACHING : bool).

Abbreviation M := (M colorscale).
Abbreviation World := (World colorscale).
Abbreviation Store := (Store colorscale).

(** The execution store is external and a write of a bundle can fail:
    [store_set_raises w id d] is the exception [store.set(id, d, ttl)]
    raises when it is called in the world [w], [None] when the store
    accepts the write. *)
Context (store_set_raises
           : World → option string → EvaluationData colorscale → option exn).

Definition lift {A} (r : result A) : M A := λ w, (r, w).

Definition emit (e : event colorscale) : M unit :=
  λ w, (Ok (),
        {| store := store w; st_view := st_view w;
           st_missing := st_missing w; trace := trace w ++ [e] |}).

Definition get_store : M Store := λ w, (Ok (store w), w).

Definition put_store (s : Store) : M unit :=
  λ w, (Ok (),
        {| store := s; st_view := st_view w;
           st_missing := st_missing w; trace := trace w |}).

Definition get_view : M ViewState := λ w, (Ok (st_view w), w).

Definition get_missing : M (option string) := λ w, (Ok (st_missing w), w).

(** [ctx.panel.set_state("missing", v)] *)
Definition set_missing (v : string) : M unit :=
  λ w, (Ok (),
        {| store := store w; st_view := st_view w;
           st_missing := Some v; trace := trace w ++ [SetState "missing"] |}).

Definition notify (message variant : string) : M unit :=
  emit (Notify message variant).

Definition set_data (key : string) (value : data colorscale) : M unit :=
  emit (SetData key value).

(** [store.set("statuses", m)] *)
Definition store_set_statuses (m : gmap (option string) (option string))
  : M unit :=
  s ← get_store;
  put_store {| statuses := Some m; notes := notes s;
               pending_evaluations := pending_evaluations s;
               cache := cache s |};;
  emit (StoreSet (Some "statuses") None).

(** [store.set("pending_evaluations", m)] *)
Definition store_set_pending (m : gmap string (list Pending)) : M unit :=
  s ← get_store;
  put_store {| statuses := statuses s; notes := notes s;
               pending_evaluations := Some m;
               cache := cache s |};;
  emit (StoreSet (Some "pending_evaluations") None).

(** [store.set(eval_id, bundle, ttl=CACHE_TTL)]: a write the store
    refuses raises and leaves the store as it is. *)
Definition store_set_bundle (id : option string)
    (d : EvaluationData colorscale) : M unit :=
  λ w,
    match store_set_raises w id d with
    | Some e => (Raise e, w)
    | None =>
        (s ← get_store;
         put_store {| statuses := statuses s; notes := notes s;
                      pending_evaluations := pending_evaluations s;
                      cache := <[id := d]> (cache s) |};;
         emit (StoreSet id (Some CACHE_TTL))) w
    end.

(** [try: m except Exception: traceback.print_exc()]: whatever [m] raises
    is caught (the printed traceback is no panel effect), and what [m] did
    before it raised stays done. *)
Definition try_except (m : M unit) : M unit :=
  λ w, (Ok (), (m w).2).

Definition set_status (req : Request) : M unit :=
  if negb can_edit_status then
    notify
      "You do not have permission to update the status of this evaluation"
      "error"
  else
    let status := p_status (params req) in
    s ← get_store;
    let statuses := default ∅ (statuses s) in
    view_state ← get_view;
    let eval_id := v_id view_state in
    let statuses := <[eval_id := status]> statuses in
    store_set_statuses statuses;;
    set_data "statuses" (DStatuses statuses);;
    label ← lift (match status ≫= dict_get STATUS_LABELS with
                  | Some l => Ok l
                  | None => Raise KeyError
                  end);
    notify ("Status updated to " +:+ label +:+ " successfully!") "success".

(** [pending_eval_key in eval_keys] *)
Definition key_in (k : option string) (eval_keys : list string) : bool :=
  match k with
  | Some k => bool_decide (k ∈ eval_keys)
  | None => false
  end.

(** The first loop of [load_pending_evaluations]; the accumulator is
    [(pending_evaluations, updated..in_stored, update_store)]. *)
Definition reconcile_stored (eval_keys : list string) (in_store : list Pending)
  : list Pending * list Pending * bool :=
  foldl (λ acc pending,
           let '(pending_evaluations, updated, update_store) := acc in
           if key_in (eval_key pending) eval_keys
           then (pending_evaluations, updated, true)
           else (pending_evaluations ++ [pending], updated ++ [pending],
                 update_store))
        ([], [], false) in_store.

(** The second loop: keys of the dataset that have no results yet. *)
Definition discover (d : Dataset) (eval_keys : list string)
    (pending_evaluations : list Pending) : list Pending :=
  foldl (λ acc key,
           if negb (has_evaluation_results d key)
           then acc ++ [{| eval_key := Some key; doc_id := None |}]
           else acc)
        pending_evaluations eval_keys.

Definition load_pending_evaluations (req : Request) : M unit :=
  let eval_keys := list_evaluations (dataset req) in
  s ← get_store;
  let ds_id := dataset_id (dataset req) in
  let pending_evaluations_in_store := default ∅ (pending_evaluations s) in
  let in_store := default [] (pending_evaluations_in_store !! ds_id) in
  let '(pending, updated, update_store) :=
    reconcile_stored eval_keys in_store in
  let pending := discover (dataset req) eval_keys pending in
  (if update_store
   then store_set_pending (<[ds_id := updated]> pending_evaluations_in_store)
   else mret ());;
  set_data "pending_evaluations" (DPending pending).

Definition load_evaluation (req : Request) : M unit :=
  view_state ← get_view;
  let eval_key := v_key view_state in
  let computed_eval_key := from_option Some eval_key (p_key (params req)) in
  let eval_id := v_id view_state in
  let computed_eval_id := from_option Some eval_id (p_id (params req)) in
  s ← get_store;
  let evaluation_data :=
    if ENABLE_CACHING then cache s !! computed_eval_id else None in
  match evaluation_data with
  | Some d =>
      set_data ("evaluation_" +:+ fmt computed_eval_key) (DEvaluation d)
  | None =>
      emit (GetEvaluationInfo computed_eval_key);;
      info ← lift (get_evaluation_info (dataset req) computed_eval_key);
      let evaluation_type := type_ (config info) in
      let serialized_info := serialize info in
      if negb (bool_decide (evaluation_type ∈ SUPPORTED_EVALUATION_TYPES))
      then
        set_data ("evaluation_" +:+ fmt computed_eval_key +:+ "_error")
                 (DError "unsupported" serialized_info)
      else
        let gt := gt_field (config info) in
        let mask_targets :=
          if bool_decide (evaluation_type = "segmentation")
          then get_mask_targets (dataset req) gt else None in
        emit (LoadEvaluationResults computed_eval_key);;
        results ← lift (load_evaluation_results (dataset req) computed_eval_key);
        let metrics := metrics results in
        per_class_metrics ← lift (get_per_class_metrics info results);
        let metrics :=
          dict_set metrics "average_confidence"
                   (get_avg_confidence per_class_metrics) in
        '(tp, fp, fn) ← lift (get_tp_fp_fn info results);
        let metrics := dict_set metrics "tp" (Qnat <$> tp) in
        let metrics := dict_set metrics "fp" (Qnat <$> fp) in
        let metrics := dict_set metrics "fn" (Qnat <$> fn) in
        let metrics := dict_set metrics "mAP" (get_map results) in
        let metrics := dict_set metrics "mAR" (get_mar results) in
        let evaluation_data :=
          {| ed_metrics := metrics;
             ed_info := serialized_info;
             ed_confusion_matrices :=
               get_confusion_matrices _to_log_colorscale results;
             ed_per_class_metrics := per_class_metrics;
             ed_mask_targets := mask_targets |} in
        set_missing (missing results);;
        (if ENABLE_CACHING
         then try_except (store_set_bundle computed_eval_id evaluation_data)
         else mret ());;
        set_data ("evaluation_" +:+ fmt computed_eval_key)
                 (DEvaluation evaluation_data)
  end.

(** Truthiness of a value that is [None] or a string. *)
Definition nonempty (v : option string) : bool :=
  match v with
  | Some (String _ _) => true
  | _ => false
  end.

Definition load_view (req : Request) : M unit :=
  let view_type := p_type (params req) in
  if bool_decide (view_type = Some "clear") then emit ClearView
  else
    view_state ← get_view;
    let view_options := p_options (params req) in
    let eval_key := from_option Some (v_key view_state) (o_key view_options) in
    emit (LoadEvaluationView eval_key);;
    emit (GetEvaluationInfo eval_key);;
    info ← lift (get_evaluation_info (dataset req) eval_key);
    let gt := gt_field (config info) in
    let eval_key2 := v_compareKey view_state in
    '(pred_field2, gt_field2) ←
      (if nonempty eval_key2 then
         emit (GetEvaluationInfo eval_key2);;
         info2 ← lift (get_evaluation_info (dataset req) eval_key2);
         mret (Some (pred_field (config info2)),
               if bool_decide (gt_field (config info2) ≠ gt)
               then Some (gt_field (config info2)) else None)
       else mret (None, None));
    let x := o_x view_options in
    let y := o_y view_options in
    let field := o_field view_options in
    state_missing ← get_missing;
    let missing := default "(none)" state_missing in
    view ← lift (
      if bool_decide (type_ (config info) = "classification") then
        classification_view info eval_key gt_field2 pred_field2
                            view_type x y field
      else if bool_decide (type_ (config info) = "detection") then
        detection_view info eval_key gt_field2 pred_field2
                       (label_root (dataset req)) missing view_type x y field
      else Ok None);
    match view with
    | Some v => emit (SetView v)
    | None => mret ()
    end.

Definition run {A} (m : M A) (w : World) : result A * World := m w.
End Panel.

(** ** Specification-side vocabulary *)

(** [load_view] completes and its last effect is [ctx.ops.set_view(v)]. *)
Definition sets_view {colorscale} (req : Request) (w : World colorscale)
    (v : View) : Prop :=
  ∃ w', load_view req w = (Ok (), w') ∧ last (trace w') = Some (SetView v).

(** The key [load_view] drills into: the ["key"] option, else the panel's. *)
Definition view_key {colorscale} (req : Request) (w : World colorscale)
  : option string :=
  from_option Some (v_key (st_view w)) (o_key (p_options (params req))).

(** A comparison evaluation, when one is selected, can be looked up. *)
Definition compare_resolves {colorscale} (req : Request) (w : World colorscale)
  : Prop :=
  nonempty (v_compareKey (st_view w)) = true →
  ∃ info2, get_evaluation_info (dataset req) (v_compareKey (st_view w)) = Ok info2.

(** The key and the id [load_evaluation] works on: the request's, else the
    panel's. *)
Definition computed_eval_key {colorscale} (req : Request)
    (w : World colorscale) : option string :=
  from_option Some (v_key (st_view w)) (p_key (params req)).
Definition computed_eval_id {colorscale} (req : Request)
    (w : World colorscale) : option string :=
  from_option Some (v_id (st_view w)) (p_id (params req)).

(** The pending list stored for the request's dataset. *)
Definition stored_pending {colorscale} (req : Request) (w : World colorscale)
  : list Pending :=
  default [] (default ∅ (pending_evaluations (store w))
              !! dataset_id (dataset req)).

(** A stored entry is dropped when its key is among the dataset's keys. *)
Definition materialized (req : Request) (p : Pending) : bool :=
  key_in (eval_key p) (list_evaluations (dataset req)).

(** The stored entries that survive a reconciliation. *)
Definition kept (eval_keys : list string) (l : list Pending) : list Pending :=
  filter (λ p, key_in (eval_key p) eval_keys = false) l.

(** The store after the pending list of the request's dataset was replaced
    by [l]. *)
Definition with_pending {colorscale} (req : Request) (w : World colorscale)
    (l : list Pending) : Store colorscale :=
  {| statuses := statuses (store w);
     notes := notes (store w);
     pending_evaluations :=
       Some (<[dataset_id (dataset req) := l]>
               (default ∅ (pending_evaluations (store w))));
     cache := cache (store w) |}.

(** What one call publishes: the kept stored entries, then one entry per
    dataset key that has no results yet. *)
Definition reconciled {colorscale} (req : Request) (w : World colorscale)
  : list Pending :=
  discover (dataset req) (list_evaluations (dataset req))
           (kept (list_evaluations (dataset req)) (stored_pending req w)).

(** The statuses map after the request's status was recorded for the
    evaluation shown in the panel. *)
Definition recorded {colorscale} (req : Request) (w : World colorscale)
  : gmap (option string) (option string) :=
  <[v_id (st_view w) := p_status (params req)]>
    (default ∅ (statuses (store w))).

(** The events a handler run added to the trace. *)
Definition emitted {colorscale} (w w' : World colorscale)
    (evs : list (event colorscale)) : Prop :=
  trace w' = trace w ++ evs.

Definition is_store_write {colorscale} (e : event colorscale) : bool :=
  match e with
  | StoreSet _ _ => true
  | _ => false
  end.

Definition is_results_load {colorscale} (e : event colorscale) : bool :=
  match e with
  | LoadEvaluationResults _ => true
  | _ => false
  end.

(** Number of scored items whose (truth, prediction) pair satisfies [P]. *)
Definition count_items (P : string → string → Prop)
    `{∀ t p, Decision (P t p)} (r : Results) : nat :=
  length (filter (λ tp, P tp.1 tp.2) (zip (ytrue r) (ypred r))).

(** Predicates that ignore one side of the pair are decided after beta
    reduction. *)
#[global] Hint Extern 1 (Decision ((λ _, _) _ _)) =>
  cbv beta : typeclass_instances.

(** No scored item has the missing sentinel on both sides. *)
Definition no_double_missing (r : Results) : Prop :=
  Forall (λ tp, ¬ (tp.1 = missing r ∧ tp.2 = missing r))
         (zip (ytrue r) (ypred r)).

(** Every scored item is a match (truth = pred), an unmatched prediction
    (truth is the missing sentinel) or an unmatched ground truth (pred is
    the missing sentinel). *)
Definition classified (r : Results) : Prop :=
  Forall (λ tp, tp.1 = tp.2 ∨ tp.1 = missing r ∨ tp.2 = missing r)
         (zip (ytrue r) (ypred r)).

(** The predictions and the ground-truth objects among the scored items:
    the entries whose side is not the missing sentinel. *)
Definition predictions (r : Results) : nat :=
  count_items (λ t p, p ≠ missing r) r.
Definition ground_truths (r : Results) : nat :=
  count_items (λ t p, t ≠ missing r) r.

(** ** Example inputs *)

Module Examples.

Definition cfg (ty : string) (m : option string) : EvaluationInfo :=
  {| config := {| type_ := ty; method := m;
                  gt_field := "ground_truth"; pred_field := "predictions" |};
     serialize := "{}" |}.

Definition res (cls yt yp : list string) (cf : option (list (option Q)))
  : Results :=
  {| classes := cls; ytrue := yt; ypred := yp; confs := cf; ious := cf;
     missing := "(none)"; report := ∅; metrics := [];
     mAP := Raise AttributeError; mAR := Raise AttributeError |}.

(** Scenario 1: binary classification. *)
Definition eval_a_info : EvaluationInfo := cfg "classification" (Some "binary").
Definition eval_a : Results :=
  res ["neg"; "pos"] ["pos"; "pos"; "neg"; "neg"]
      ["pos"; "neg"; "pos"; "neg"] (Some [None; None; None; None]).

(** Scenario 2: detection. *)
Definition det_info : EvaluationInfo := cfg "detection" None.
Definition det : Results :=
  res ["cat"; "dog"] ["cat"; "(none)"; "dog"] ["cat"; "dog"; "(none)"]
      (Some [None; None; None]).

(** A detection result with one item that is missing on both sides. *)
Definition det_double_missing : Results :=
  res ["cat"] ["(none)"] ["(none)"] (Some [None]).

(** A detection result whose class [dog] is predicted but never occurs
    in the ground truth. *)
Definition det_unseen : Results :=
  res ["cat"; "dog"] ["cat"; "(none)"] ["cat"; "dog"] (Some [None; None]).

(** A segmentation run over one class. *)
Definition seg_info : EvaluationInfo := cfg "segmentation" None.
Definition seg : Results := res ["road"] ["road"] ["road"] None.

(** A dataset with a detection run and a run of an unsupported type. *)
Definition ds : Dataset :=
  {| dataset_id := "ds1";
     list_evaluations := ["eval_det"; "eval_reg"];
     doc_evaluations :=
       {[ "eval_det" := {| e_id := "id_det"; e_results := true |};
          "eval_reg" := {| e_id := "id_reg"; e_results := true |} ]};
     get_evaluation_info := λ k,
       if decide (k = Some "eval_det") then Ok det_info
       else if decide (k = Some "eval_reg") then Ok (cfg "regression" None)
       else Raise ValueError;
     load_evaluation_results := λ k,
       if decide (k = Some "eval_det") then Ok det else Raise ValueError;
     mask_targets := ∅;
     default_mask_targets := [];
     label_root := λ f, f +:+ ".detections" |}.

Definition no_options : Options :=
  {| o_key := None; o_x := None; o_y := None; o_field := None |}.

Definition empty_store : Store unit :=
  {| statuses := None; notes := None; pending_evaluations := None;
     cache := ∅ |}.

(** The panel showing evaluation [key] with id [id], nothing emitted yet. *)
Definition world (key id : string) (s : Store unit) : World unit :=
  {| store := s;
     st_view := {| v_key := Some key; v_id := Some id; v_compareKey := None |};
     st_missing := Some "(none)";
     trace := [] |}.

(** A click on the confusion-matrix cell (x, y). *)
Definition click_cell (x y : string) : Request :=
  {| params := {| p_status := None; p_key := None; p_id := None;
                  p_type := Some "matrix";
                  p_options := {| o_key := None; o_x := Some x;
                                  o_y := Some y; o_field := None |} |};
     dataset := ds |}.

(** A request carrying only a status. *)
Definition status_request (status : option string) : Request :=
  {| params := {| p_status := status; p_key := None; p_id := None;
                  p_type := None; p_options := no_options |};
     dataset := ds |}.

Definition plain_request : Request := status_request None.

Definition no_metrics : PerClass :=
  {| confidence := None; iou := None; precision := None; recall := None;
     f1_score := None; support := None |}.

End Examples.

(** ** Further handlers *)

(** [ctx.params.get("result", {})] of a finished submission: the job id
    [result.get("id")], the entry [result["eval_key"]] when there is one,
    and the key of a delegated run,
    [result["context"]["params"]["eval_key"]]. *)
Record Submission := {
  sub_id : option string;
  sub_eval_key : option string;
  sub_delegated_eval_key : option string;
}.

(** The notes map is published like the statuses map: a dictionary from
    evaluation id to text. *)
Definition DNotes {colorscale : Type} (m : gmap (option string) (option string))
  : data colorscale := DStatuses m.

(** [store.set("notes", m)] *)
Definition store_set_notes {colorscale : Type}
    (m : gmap (option string) (option string)) : M colorscale unit :=
  s ← get_store;
  put_store {| statuses := statuses s; notes := Some m;
               pending_evaluations := pending_evaluations s;
               cache := cache s |};;
  emit (StoreSet (Some "notes") None).

(** [note] is [ctx.params.get("note", None)]. *)
Definition set_note {colorscale : Type} (note : option string) (req : Request)
  : M colorscale unit :=
  if negb can_edit_note then
    notify "You do not have permission to update the note of this evaluation"
           "error"
  else
    s ← get_store;
    let notes := default ∅ (notes s) in
    view_state ← get_view;
    let eval_id := v_id view_state in
    let notes := <[eval_id := note]> notes in
    store_set_notes notes;;
    set_data "notes" (DNotes notes);;
    notify "Note updated successfully!" "success".

(** The pending record a submission is stored as. *)
Definition submitted (result : Submission) : Pending :=
  {| eval_key := from_option Some (sub_delegated_eval_key result)
                             (sub_eval_key result);
     doc_id := sub_id result |}.

Definition on_evaluate_model_success {colorscale : Type} (result : Submission)
    (req : Request) : M colorscale unit :=
  let ds_id := dataset_id (dataset req) in
  let pending := submitted result in
  s ← get_store;
  let pending_evaluations := default ∅ (pending_evaluations s) in
  let pending_evaluations :=
    <[ds_id := default [] (pending_evaluations !! ds_id) ++ [pending]]>
      pending_evaluations in
  store_set_pending pending_evaluations;;
  load_pending_evaluations req.

(** The ["evaluations"] state [on_load] builds: key and id of every
    evaluation of the dataset that has results. *)
Definition on_load_evaluations (d : Dataset) : list (string * option string) :=
  foldl (λ evaluations key,
           if has_evaluation_results d key
           then evaluations ++ [(key, get_evaluation_id d key)]
           else evaluations)
        [] (list_evaluations d).

(** The pending entry synthesized for a dataset key without results. *)
Definition discovered (key : string) : Pending :=
  {| eval_key := Some key; doc_id := None |}.

Definition is_view_change {colorscale : Type} (e : event colorscale) : bool :=
  match e with
  | SetView _ | ClearView => true
  | _ => false
  end.

Definition is_dataset_call {colorscale : Type} (e : event colorscale) : bool :=
  match e with
  | GetEvaluationInfo _ | LoadEvaluationResults _ | LoadEvaluationView _ => true
  | _ => false
  end.

(** The predicate [load_view] computes once the fields are resolved: the
    dispatch on the evaluation type. *)
Definition drill_down (info : EvaluationInfo) (eval_key : option string)
    (gt_field2 pred_field2 : option string) (root : string → string)
    (missing : string) (view_type x y field : option string)
  : result (option View) :=
  if bool_decide (type_ (config info) = "classification") then
    classification_view info eval_key gt_field2 pred_field2 view_type x y field
  else if bool_decide (type_ (config info) = "detection") then
    detection_view info eval_key gt_field2 pred_field2 root missing
                   view_type x y field
  else Ok None.

(** The world [w] with the events [evs] added to its trace. *)
Definition with_events {colorscale : Type} (w : World colorscale)
    (evs : list (event colorscale)) : World colorscale :=
  {| store := store w; st_view := st_view w; st_missing := st_missing w;
     trace := trace w ++ evs |}.

(** The lookups [load_view] makes before it computes the predicate. *)
Definition view_lookups {colorscale : Type} (req : Request)
    (w : World colorscale) : list (event colorscale) :=
  [LoadEvaluationView (view_key req w); GetEvaluationInfo (view_key req w)]
  ++ (if nonempty (v_compareKey (st_view w))
      then [GetEvaluationInfo (v_compareKey (st_view w))] else []).

(** A dataset with one binary classification run, and a click on a field
    of the panel showing it. *)
Module FieldExamples.

Definition ds_binary : Dataset :=
  {| dataset_id := "ds2";
     list_evaluations := ["eval_a"];
     doc_evaluations := {[ "eval_a" := {| e_id := "id_a"; e_results := true |} ]};
     get_evaluation_info := λ k,
       if decide (k = Some "eval_a") then Ok Examples.eval_a_info
       else Raise ValueError;
     load_evaluation_results := λ k,
       if decide (k = Some "eval_a") then Ok Examples.eval_a
       else Raise ValueError;
     mask_targets := ∅;
     default_mask_targets := [];
     label_root := λ f, f |}.

Definition click_field (field : option string) : Request :=
  {| params := {| p_status := None; p_key := None; p_id := None;
                  p_type := Some "field";
                  p_options := {| o_key := None; o_x := None; o_y := None;
                                  o_field := field |} |};
     dataset := ds_binary |}.

End FieldExamples.

(** A detection run whose results use the sentinel "bg", and a panel
    opened on it: a newly opened panel has no "missing" state yet. *)
Module SentinelExamples.

Definition det_bg : Results :=
  {| classes := ["cat"; "dog"];
     ytrue := ["cat"; "bg"]; ypred := ["cat"; "dog"];
     confs := Some [None; None]; ious := Some [None; None];
     missing := "bg"; report := ∅; metrics := [];
     mAP := Raise AttributeError; mAR := Raise AttributeError |}.

Definition ds_bg : Dataset :=
  {| dataset_id := "ds3";
     list_evaluations := ["eval_bg"];
     doc_evaluations :=
       {[ "eval_bg" := {| e_id := "id_bg"; e_results := true |} ]};
     get_evaluation_info := λ k,
       if decide (k = Some "eval_bg") then Ok Examples.det_info
       else Raise ValueError;
     load_evaluation_results := λ k,
       if decide (k = Some "eval_bg") then Ok det_bg else Raise ValueError;
     mask_targets := ∅;
     default_mask_targets := [];
     label_root := λ f, f +:+ ".detections" |}.

Definition opened (s : Store ()) : World () :=
  {| store := s;
     st_view := {| v_key := Some "eval_bg"; v_id := Some "id_bg";
                   v_compareKey := None |};
     st_missing := None;
     trace := [] |}.

(** The request that loads the evaluation shown in the panel. *)
Definition load_request : Request :=
  {| params := {| p_status := None; p_key := None; p_id := None;
                  p_type := None; p_options := Examples.no_options |};
     dataset := ds_bg |}.

(** A click on the confusion-matrix cell (x, y). *)
Definition click_cell (x y : string) : Request :=
  {| params := {| p_status := None; p_key := None; p_id := None;
                  p_type := Some "matrix";
                  p_options := {| o_key := None; o_x := Some x;
                                  o_y := Some y; o_field := None |} |};
     dataset := ds_bg |}.

(** [load_evaluation] with caching enabled and a store that accepts every
    write. *)
Definition load : World () → result () * World () :=
  load_evaluation (λ _ _, ()) true (λ _ _ _, None) load_request.

(** The false positives of class [x]. *)
Definition false_positives (x : string) : View :=
  [FilterLabels "predictions"
     (And (Eq (F (Some "label")) (Some x)) (Eq (F (Some "eval_bg")) (Some "fp")))
     true].

(** The samples with both a ground-truth label [y] and a predicted
    label [x]. *)
Definition both_present (x y : string) : View :=
  [FilterLabels "ground_truth" (Eq (F (Some "label")) (Some y)) false;
   FilterLabels "predictions" (Eq (F (Some "label")) (Some x)) false;
   Match (And (LengthGt0 (F (Some "ground_truth.detections")))
              (LengthGt0 (F (Some "predictions.detections"))))].

End SentinelExamples.

(** ** Vocabulary for the per-class averages and the rankings *)

(** How often the label [c] occurs in [xs]. *)
Definition occurrences (c : string) (xs : list string) : nat :=
  length (filter (λ x, x = c) xs).

(** The values paired with the items predicted as [c], an absent value
    read as 0. *)
Definition values_of (c : string) (ypred : list string)
    (vals : list (option Q)) : list Q :=
  (λ yv, default 0%Q yv.2) <$> filter (λ yv, yv.1 = c) (zip ypred vals).

(** The mean of a list of values, 0 for the empty list. *)
Definition mean_or_zero (vs : list Q) : Q :=
  if vs is [] then 0%Q else Qdiv (foldl Qplus 0%Q vs) (Qnat (length vs)).

(** The arrays [get_per_class_metrics] reads for the evaluation type are
    there. *)
Definition has_needed_values (info : EvaluationInfo) (r : Results) : Prop :=
  (type_ (config info) ∈ EVALUATION_TYPES_WITH_CONFIDENCE → is_Some (confs r))
  ∧ (type_ (config info) ∈ EVALUATION_TYPES_WITH_IOU → is_Some (ious r)).

(** ** Counting lemmas for masks over aligned arrays *)

Section Counting.
Context {A B : Type}.
Implicit Types (a : list A) (b : list B).

Lemma broadcast_aligned {C} (f : A → B → C) a b :
  length a = length b → Np.broadcast f a b = Ok (zip_with f a b).
Proof. intros Hlen. unfold Np.broadcast. by rewrite decide_True. Qed.

Lemma count_nonzero_cons (x : bool) (m : list bool) :
  Np.count_nonzero (x :: m) = (if x then 1 else 0) + Np.count_nonzero m.
Proof.
  unfold Np.count_nonzero. rewrite filter_cons. by destruct x.
Qed.

Lemma count_nonzero_zip_with (h : A → B → bool) a b :
  Np.count_nonzero (zip_with h a b)
  = length (filter (λ tp, h tp.1 tp.2 = true) (zip a b)).
Proof.
  revert b. induction a as [|x a IH]; intros [|y b]; try done.
  cbn [zip_with]. rewrite count_nonzero_cons, filter_cons, IH. simpl.
  by destruct (h x y).
Qed.

Lemma length_filter_ext {T} (P Q : T → Prop)
    `{∀ x, Decision (P x)} `{∀ x, Decision (Q x)} (l : list T) :
  (∀ x, x ∈ l → P x ↔ Q x) →
  length (filter P l) = length (filter Q l).
Proof.
  induction l as [|x l IH]; intros Hiff; [done|].
  rewrite !filter_cons.
  assert (P x ↔ Q x) as Hx by (apply Hiff; left).
  assert (length (filter P l) = length (filter Q l)) as IH'
    by (apply IH; intros; apply Hiff; by right).
  destruct (decide (P x)), (decide (Q x)); simpl; [lia|tauto|tauto|lia].
Qed.

(** A mask computed from the left array alone counts the same items as
    the corresponding filter over the pairs, once the arrays are aligned. *)
Lemma count_nonzero_left (f : A → bool) a b :
  length a = length b →
  Np.count_nonzero (map f a)
  = length (filter (λ tp, f tp.1 = true) (zip a b)).
Proof.
  revert b. induction a as [|x a IH]; intros [|y b] Hlen; try done.
  cbn [map zip zip_with]. rewrite count_nonzero_cons, filter_cons.
  rewrite (IH b) by (simpl in Hlen; lia). simpl.
  by destruct (f x).
Qed.

Lemma count_nonzero_right (g : B → bool) a b :
  length a = length b →
  Np.count_nonzero (map g b)
  = length (filter (λ tp, g tp.2 = true) (zip a b)).
Proof.
  revert b. induction a as [|x a IH]; intros [|y b] Hlen; try done.
  cbn [map zip zip_with]. rewrite count_nonzero_cons, filter_cons.
  rewrite (IH b) by (simpl in Hlen; lia). simpl.
  by destruct (g y).
Qed.

(** Pointwise additivity of indicator counts. *)
Lemma length_filter_add {T} (P Q R : T → Prop)
    `{∀ x, Decision (P x)} `{∀ x, Decision (Q x)} `{∀ x, Decision (R x)}
    (l : list T) :
  Forall (λ x, (P x ∧ ¬ Q x ∧ R x) ∨ (¬ P x ∧ Q x ∧ R x)
               ∨ (¬ P x ∧ ¬ Q x ∧ ¬ R x)) l →
  length (filter P l) + length (filter Q l) = length (filter R l).
Proof.
  induction 1 as [|x l Hx _ IH]; [done|].
  rewrite !filter_cons.
  destruct (decide (P x)), (decide (Q x)), (decide (R x)); simpl;
    try lia; tauto.
Qed.
End Counting.

(** ** tp / fp / fn *)

Lemma zip_with_map {A B A' B' C} (h : A' → B' → C) (f : A → A') (g : B → B')
    (a : list A) (b : list B) :
  zip_with h (map f a) (map g b) = zip_with (λ x y, h (f x) (g y)) a b.
Proof.
  revert b. induction a as [|x a IH]; intros [|y b]; simpl; try done.
  by rewrite IH.
Qed.

(** The mask [m1 & m2] of two scalar comparisons over aligned arrays counts
    the pairs satisfying both. *)
Lemma count_and_masks (f g : string → bool) (P : string → string → Prop)
    `{∀ t p, Decision (P t p)} (r : Results) :
  aligned r →
  (∀ t p, f t && g p = true ↔ P t p) →
  (m ← Np.and_ (map f (ytrue r)) (map g (ypred r)); Ok (Np.count_nonzero m))
  = Ok (count_items P r).
Proof.
  intros Hal Hiff. unfold Np.and_.
  rewrite broadcast_aligned by (by rewrite !length_map).
  cbn. f_equal. rewrite zip_with_map, count_nonzero_zip_with.
  unfold count_items. apply length_filter_ext. intros [t p] _. apply Hiff.
Qed.

Lemma and_masks_ok (f g : string → bool) (r : Results) :
  aligned r →
  Np.and_ (map f (ytrue r)) (map g (ypred r))
  = Ok (zip_with (λ t p, f t && g p) (ytrue r) (ypred r)).
Proof.
  intros Hal. unfold Np.and_.
  rewrite broadcast_aligned by (by rewrite !length_map).
  by rewrite zip_with_map.
Qed.

Lemma count_zip_mask (h : string → string → bool) (P : string → string → Prop)
    `{∀ t p, Decision (P t p)} (r : Results) :
  (∀ t p, h t p = true ↔ P t p) →
  Np.count_nonzero (zip_with h (ytrue r) (ypred r)) = count_items P r.
Proof.
  intros Hiff. rewrite count_nonzero_zip_with. unfold count_items.
  apply length_filter_ext. intros [t p] _. apply Hiff.
Qed.

Lemma eq_mask_iff (x s : string) : bool_decide (x = s) = true ↔ x = s.
Proof. apply bool_decide_eq_true. Qed.

Lemma ne_mask_iff (x s : string) : negb (bool_decide (x = s)) = true ↔ x ≠ s.
Proof. by rewrite negb_true_iff, bool_decide_eq_false. Qed.

Lemma get_tp_fp_fn_binary (info : EvaluationInfo) (r : Results)
    (neg pos : string) :
  type_ (config info) = "classification" →
  method (config info) = Some "binary" →
  classes r = [neg; pos] →
  aligned r →
  get_tp_fp_fn info r =
    Ok (Some (count_items (λ t p, t = pos ∧ p = pos) r),
        Some (count_items (λ t p, t ≠ pos ∧ p = pos) r),
        Some (count_items (λ t p, t = pos ∧ p ≠ pos) r)).
Proof.
  intros Hty Hme Hcls Hal. unfold get_tp_fp_fn.
  rewrite Hty, Hme, Hcls. cbn [bool_decide andb].
  rewrite !bool_decide_eq_true_2 by done. cbn [andb].
  unfold Np.eq_scalar, Np.ne_scalar. rewrite !and_masks_ok by done. cbn.
  repeat f_equal; apply count_zip_mask; intros t p;
    rewrite andb_true_iff, ?eq_mask_iff, ?ne_mask_iff; done.
Qed.

Lemma get_tp_fp_fn_detection (info : EvaluationInfo) (r : Results) :
  type_ (config info) = "detection" →
  aligned r →
  get_tp_fp_fn info r =
    Ok (Some (count_items (λ t p, t = p) r),
        Some (count_items (λ t p, t = missing r) r),
        Some (count_items (λ t p, p = missing r) r)).
Proof.
  intros Hty Hal. unfold get_tp_fp_fn. rewrite Hty.
  rewrite bool_decide_eq_false_2 by done. cbn [andb].
  rewrite bool_decide_eq_true_2 by done.
  unfold Np.eq_array. rewrite broadcast_aligned by done. cbn.
  repeat f_equal.
  - apply count_zip_mask. intros t p. apply bool_decide_eq_true.
  - unfold Np.eq_scalar. rewrite (count_nonzero_left _ _ (ypred r)) by done.
    unfold count_items. apply length_filter_ext. intros [t p] _.
    apply bool_decide_eq_true.
  - unfold Np.eq_scalar. rewrite (count_nonzero_right _ (ytrue r)) by done.
    unfold count_items. apply length_filter_ext. intros [t p] _.
    apply bool_decide_eq_true.
Qed.

Lemma get_tp_fp_fn_other (info : EvaluationInfo) (r : Results) :
  type_ (config info) ≠ "classification" →
  type_ (config info) ≠ "detection" →
  get_tp_fp_fn info r = Ok (None, None, None).
Proof.
  intros Hc Hd. unfold get_tp_fp_fn.
  rewrite (bool_decide_eq_false_2 _ Hc), (bool_decide_eq_false_2 _ Hd).
  done.
Qed.

(** C4: a binary classification evaluation whose classes are [neg; pos]
    gets tp = #(truth = pos, pred = pos), fp = #(truth ≠ pos, pred = pos) and
    fn = #(truth = pos, pred ≠ pos); on ytrue = [pos; pos; neg; neg] and
    ypred = [pos; neg; pos; neg] that is tp = 1, fp = 1, fn = 1. *)
Theorem binary_tp_fp_fn (info : EvaluationInfo) (r : Results) (neg pos : string) :
  type_ (config info) = "classification" →
  method (config info) = Some "binary" →
  classes r = [neg; pos] →
  aligned r →
  get_tp_fp_fn info r =
    Ok (Some (count_items (λ t p, t = pos ∧ p = pos) r),
        Some (count_items (λ t p, t ≠ pos ∧ p = pos) r),
        Some (count_items (λ t p, t = pos ∧ p ≠ pos) r))
  ∧ (neg ≠ pos →
     ytrue r = [pos; pos; neg; neg] → ypred r = [pos; neg; pos; neg] →
     get_tp_fp_fn info r = Ok (Some 1, Some 1, Some 1)).
Proof.
  intros Hty Hme Hcls Hal.
  pose proof (get_tp_fp_fn_binary info r neg pos Hty Hme Hcls Hal) as Hgen.
  split; [exact Hgen|].
  intros Hne Hyt Hyp. rewrite Hgen. unfold count_items. rewrite Hyt, Hyp.
  cbn [zip zip_with]. rewrite !filter_cons, filter_nil. cbn [fst snd].
  repeat (first [rewrite decide_True by (clear -Hne; intuition congruence)
                |rewrite decide_False by (clear -Hne; intuition congruence)]).
  done.
Qed.

Lemma binary_tp_fp_fn_scenario :
  type_ (config Examples.eval_a_info) = "classification"
  ∧ method (config Examples.eval_a_info) = Some "binary"
  ∧ classes Examples.eval_a = ["neg"; "pos"]
  ∧ aligned Examples.eval_a
  ∧ get_tp_fp_fn Examples.eval_a_info Examples.eval_a
    = Ok (Some 1, Some 1, Some 1).
Proof.
  do 4 (split; [reflexivity|]).
  apply (binary_tp_fp_fn Examples.eval_a_info Examples.eval_a "neg" "pos");
    first [reflexivity | discriminate].
Defined.

(** C5 (as the code has it): for a detection evaluation tp counts the items
    with truth = pred, fp those whose truth is the missing sentinel and fn
    those whose prediction is the missing sentinel; tp is the number of
    matches with both sides present whenever no item is missing on both
    sides.  On ytrue = [cat; missing; dog] and ypred = [cat; dog; missing]
    that is tp = 1, fp = 1, fn = 1.  Any type other than classification and
    detection gets nulls. *)
Theorem detection_tp_fp_fn (info : EvaluationInfo) (r : Results) :
  aligned r →
  (type_ (config info) = "detection" →
   get_tp_fp_fn info r =
     Ok (Some (count_items (λ t p, t = p) r),
         Some (count_items (λ t p, t = missing r) r),
         Some (count_items (λ t p, p = missing r) r))
   ∧ (no_double_missing r →
      count_items (λ t p, t = p) r
      = count_items (λ t p, t = p ∧ t ≠ missing r ∧ p ≠ missing r) r)
   ∧ (∀ cat dog,
        cat ≠ missing r → dog ≠ missing r →
        ytrue r = [cat; missing r; dog] → ypred r = [cat; dog; missing r] →
        get_tp_fp_fn info r = Ok (Some 1, Some 1, Some 1)))
  ∧ (type_ (config info) ≠ "classification" →
     type_ (config info) ≠ "detection" →
     get_tp_fp_fn info r = Ok (None, None, None)).
Proof.
  intros Hal. split; [|apply get_tp_fp_fn_other].
  intros Hty. pose proof (get_tp_fp_fn_detection info r Hty Hal) as Hgen.
  split; [exact Hgen|]. split.
  - intros Hnd. unfold count_items. apply length_filter_ext.
    intros [t p] Hin. unfold no_double_missing in Hnd.
    rewrite Forall_forall in Hnd. specialize (Hnd _ Hin). simpl in *.
    split; [|tauto]. intros ->. split; [done|].
    split; intros Hm; apply Hnd; by rewrite Hm.
  - intros cat dog Hcat Hdog Hyt Hyp. rewrite Hgen. unfold count_items.
    rewrite Hyt, Hyp. cbn [zip zip_with].
    rewrite !filter_cons, filter_nil. cbn [fst snd].
    repeat (first
      [rewrite decide_True by (clear -Hcat Hdog; intuition congruence)
      |rewrite decide_False by (clear -Hcat Hdog; intuition congruence)]).
    done.
Qed.

Lemma detection_tp_fp_fn_scenario :
  aligned Examples.det
  ∧ type_ (config Examples.det_info) = "detection"
  ∧ no_double_missing Examples.det
  ∧ get_tp_fp_fn Examples.det_info Examples.det = Ok (Some 1, Some 1, Some 1)
  ∧ count_items (λ t p, t = p ∧ t ≠ "(none)" ∧ p ≠ "(none)") Examples.det = 1.
Proof.
  assert (aligned Examples.det) as Hal by reflexivity.
  assert (no_double_missing Examples.det) as Hnd.
  { unfold no_double_missing. cbn. repeat constructor; cbn; intros [? ?];
      discriminate. }
  destruct (detection_tp_fp_fn Examples.det_info Examples.det Hal) as [Hdet _].
  destruct (Hdet eq_refl) as (Hcounts & Hboth & _).
  split; [exact Hal|]. split; [reflexivity|]. split; [exact Hnd|].
  split; [rewrite Hcounts; reflexivity|].
  transitivity (count_items (λ t p, t = p) Examples.det);
    [symmetry; exact (Hboth Hnd) | reflexivity].
Defined.

(** The claim's reading of tp fails on an item missing on both sides: the
    code counts it as a true positive, the claim does not. *)
Lemma detection_tp_double_missing :
  get_tp_fp_fn Examples.det_info Examples.det_double_missing
  = Ok (Some 1, Some 1, Some 1)
  ∧ get_tp_fp_fn Examples.det_info Examples.det_double_missing
    ≠ Ok (Some (count_items (λ t p, t = p ∧ t ≠ "(none)" ∧ p ≠ "(none)")
                            Examples.det_double_missing),
          Some (count_items (λ t p, t = "(none)") Examples.det_double_missing),
          Some (count_items (λ t p, p = "(none)") Examples.det_double_missing)).
Proof. split; [reflexivity|]. vm_compute. discriminate. Qed.

(** C6 (as the code has it): for a detection evaluation whose items are each
    a match, an unmatched prediction or an unmatched ground truth, and none
    of which is missing on both sides, tp + fp is the number of predictions
    and tp + fn the number of ground-truth objects. *)
Theorem detection_totals (info : EvaluationInfo) (r : Results) :
  type_ (config info) = "detection" →
  aligned r →
  classified r →
  no_double_missing r →
  ∃ tp fp fn,
    get_tp_fp_fn info r = Ok (Some tp, Some fp, Some fn)
    ∧ tp + fp = predictions r
    ∧ tp + fn = ground_truths r.
Proof.
  intros Hty Hal Hcl Hnd.
  rewrite (get_tp_fp_fn_detection info r Hty Hal).
  eexists _, _, _. split; [reflexivity|].
  unfold classified, no_double_missing in *.
  rewrite Forall_forall in Hcl, Hnd.
  split; unfold predictions, ground_truths, count_items;
    apply length_filter_add, Forall_forall; intros [t p] Hin;
    specialize (Hcl _ Hin); specialize (Hnd _ Hin); simpl in *;
    destruct (decide (t = p)), (decide (t = missing r)),
      (decide (p = missing r)); subst; tauto.
Qed.

Lemma detection_totals_scenario :
  type_ (config Examples.det_info) = "detection"
  ∧ aligned Examples.det
  ∧ classified Examples.det
  ∧ no_double_missing Examples.det
  ∧ ∃ tp fp fn,
      get_tp_fp_fn Examples.det_info Examples.det = Ok (Some tp, Some fp, Some fn)
      ∧ tp + fp = predictions Examples.det
      ∧ tp + fn = ground_truths Examples.det.
Proof.
  assert (classified Examples.det) as Hcl.
  { unfold classified. cbn.
    repeat first [apply List.Forall_nil | apply List.Forall_cons; [cbn; auto|]]. }
  assert (no_double_missing Examples.det) as Hnd.
  { unfold no_double_missing. cbn. repeat constructor; cbn; intros [? ?];
      discriminate. }
  split; [reflexivity|]. split; [reflexivity|].
  split; [exact Hcl|]. split; [exact Hnd|].
  exact (detection_totals Examples.det_info Examples.det eq_refl eq_refl Hcl Hnd).
Defined.

(** An item missing on both sides satisfies the claim's three-way
    description (its truth equals its prediction) and is counted in tp, fp
    and fn at once, so tp + fp = 2 although there is no prediction at all
    (and a single entry in [ypred]). *)
Lemma detection_totals_double_missing :
  type_ (config Examples.det_info) = "detection"
  ∧ aligned Examples.det_double_missing
  ∧ classified Examples.det_double_missing
  ∧ get_tp_fp_fn Examples.det_info Examples.det_double_missing
    = Ok (Some 1, Some 1, Some 1)
  ∧ predictions Examples.det_double_missing = 0
  ∧ ground_truths Examples.det_double_missing = 0
  ∧ length (ypred Examples.det_double_missing) = 1
  ∧ ¬ ∃ tp fp fn,
        get_tp_fp_fn Examples.det_info Examples.det_double_missing
        = Ok (Some tp, Some fp, Some fn)
        ∧ tp + fp = predictions Examples.det_double_missing
        ∧ tp + fn = ground_truths Examples.det_double_missing.
Proof.
  split; [reflexivity|]. split; [reflexivity|].
  split; [unfold classified; cbn;
          repeat first [apply List.Forall_nil | apply List.Forall_cons; [cbn; auto|]]|].
  do 4 (split; [reflexivity|]).
  intros (tp & fp & fn & Hrun & Hp & _).
  assert (tp = 1 ∧ fp = 1) as [-> ->].
  { vm_compute in Hrun. by injection Hrun as <- <- <-. }
  vm_compute in Hp. discriminate.
Qed.

(** ** Average confidence *)

Lemma avg_confidence_fold (l : list PerClass) (n : nat) (t : Q) :
  (foldl (λ acc m,
            let '(count, total) := acc in
            (S count,
             match confidence m with
             | Some c => Qplus total c
             | None => total
             end)) (n, t) l).1 = n + length l.
Proof.
  revert n t. induction l as [|m l IH]; intros n t; simpl; [lia|].
  rewrite IH. lia.
Qed.

(** The result is null only for an empty class list: classes without a
    confidence still enter the denominator. *)
Lemma get_avg_confidence_None (pcm : dict string PerClass) :
  get_avg_confidence pcm = None ↔ pcm = [].
Proof.
  unfold get_avg_confidence, dict_values.
  pose proof (avg_confidence_fold (pcm.*2) 0 0%Q) as Hn.
  destruct (foldl _ _ _) as [count total]. simpl in Hn.
  rewrite length_fmap in Hn. subst count.
  destruct pcm as [|kv pcm]; simpl; split; intros; done.
Qed.

Lemma avg_confidence_total (l : list PerClass) (n : nat) (t : Q) :
  (foldl (λ acc m,
            let '(count, total) := acc in
            (S count,
             match confidence m with
             | Some c => Qplus total c
             | None => total
             end)) (n, t) l).2 = foldl Qplus t (omap confidence l).
Proof.
  revert n t. induction l as [|m l IH]; intros n t; simpl; [done|].
  rewrite IH. by destruct (confidence m).
Qed.

(** The sum runs over the classes that carry a confidence, the divisor is
    the number of all classes. *)
Lemma get_avg_confidence_spec (pcm : dict string PerClass) :
  get_avg_confidence pcm =
    if pcm is [] then None
    else Some (Qdiv (foldl Qplus 0%Q (omap confidence (dict_values pcm)))
                    (Qnat (length pcm))).
Proof.
  unfold get_avg_confidence.
  pose proof (avg_confidence_fold (dict_values pcm) 0 0%Q) as Hn.
  pose proof (avg_confidence_total (dict_values pcm) 0 0%Q) as Ht.
  destruct (foldl _ _ _) as [count total]. simpl in Hn, Ht.
  unfold dict_values in Hn. rewrite length_fmap in Hn. subst count total.
  by destruct pcm.
Qed.

Lemma dict_set_Forall {V} (P : V → Prop) (d : dict string V) (k : string)
    (v : V) :
  Forall (λ kv, P kv.2) d → P v → Forall (λ kv, P kv.2) (dict_set d k v).
Proof.
  intros Hd Hv. induction Hd as [|[k' v'] d Hk Hd IH]; simpl.
  - by repeat constructor.
  - destruct (decide (k' = k)); constructor; done.
Qed.

Lemma dict_set_nonempty {V} (d : dict string V) (k : string) (v : V) :
  dict_set d k v ≠ [].
Proof. destruct d as [|[k' v'] d]; simpl; [done|]. by destruct (decide _). Qed.

Lemma per_class_loop_no_confidence (ious : option (dict string Q))
    (rep : gmap string ClassReport) (cs : list string)
    (acc pcm : dict string PerClass) :
  per_class_loop None ious rep cs acc = Ok pcm →
  Forall (λ kv, confidence kv.2 = None) acc →
  Forall (λ kv, confidence kv.2 = None) pcm
  ∧ (acc ≠ [] ∨ cs ≠ [] → pcm ≠ []).
Proof.
  revert acc. induction cs as [|c cs IH]; intros acc Hrun Hacc; simpl in Hrun.
  - injection Hrun as <-. split; [done|]. by intros [?|?].
  - destruct (guarded_item ious c) as [io|e]; [|done]. cbn in Hrun.
    apply IH in Hrun as [Hall Hne];
      [|by apply (dict_set_Forall (λ m, confidence m = None))].
    split; [done|]. intros _. apply Hne. left. apply dict_set_nonempty.
Qed.

Lemma no_confidence_sum (l : list PerClass) :
  Forall (λ m, confidence m = None) l → omap confidence l = [].
Proof. induction 1 as [|m l Hm _ IH]; simpl; [done|]. by rewrite Hm. Qed.

(** For an evaluation type without confidences and a non-empty class list
    the average confidence is 0 over the number of classes, never null. *)
Lemma avg_confidence_without_confidences (info : EvaluationInfo)
    (r : Results) (pcm : dict string PerClass) :
  type_ (config info) ∉ EVALUATION_TYPES_WITH_CONFIDENCE →
  classes r ≠ [] →
  get_per_class_metrics info r = Ok pcm →
  pcm ≠ []
  ∧ get_avg_confidence pcm = Some (Qdiv 0%Q (Qnat (length pcm))).
Proof.
  intros Hty Hcls Hrun. unfold get_per_class_metrics in Hrun.
  rewrite (bool_decide_eq_false_2 _ Hty) in Hrun. cbn in Hrun.
  destruct (if bool_decide _ then _ else _) as [ious|e]; [|done].
  cbn in Hrun.
  apply per_class_loop_no_confidence in Hrun as [Hall Hne]; [|constructor].
  assert (pcm ≠ []) as Hpcm by (apply Hne; by right).
  split; [done|]. rewrite get_avg_confidence_spec.
  destruct pcm as [|kv pcm]; [done|].
  rewrite no_confidence_sum; [done|].
  unfold dict_values. by apply Forall_fmap.
Qed.

(** C1 (the code at the failing input): a segmentation evaluation over the
    single class "road" carries no per-class confidence, yet its
    average_confidence is 0 and not null. *)
Theorem avg_confidence_segmentation :
  get_per_class_metrics Examples.seg_info Examples.seg
  = Ok [("road", Examples.no_metrics)]
  ∧ get_avg_confidence [("road", Examples.no_metrics)] = Some 0%Q.
Proof. split; reflexivity. Qed.

(** ** Facts about [sorted] *)

Section SortedFacts.
Context {A : Type} (le : A → A → bool).

Lemma insert_sorted_Permutation (x : A) (l : list A) :
  insert_sorted le x l ≡ₚ x :: l.
Proof.
  induction l as [|y l IH]; simpl; [done|].
  destruct (le x y); [done|]. rewrite IH. apply Permutation_swap.
Qed.

Lemma sorted_Permutation (l : list A) : sorted le l ≡ₚ l.
Proof.
  induction l as [|x l IH]; simpl; [done|].
  by rewrite insert_sorted_Permutation, IH.
Qed.

Lemma sorted_reverse_Permutation (l : list A) : sorted_reverse le l ≡ₚ l.
Proof.
  unfold sorted_reverse.
  by rewrite reverse_Permutation, sorted_Permutation, reverse_Permutation.
Qed.

Context (le_total : ∀ a b, le a b ∨ le b a).

Lemma insert_sorted_HdRel (x y : A) (l : list A) :
  le y x → HdRel (λ a b, le a b) y l →
  HdRel (λ a b, le a b) y (insert_sorted le x l).
Proof.
  intros Hyx Hhd. destruct l as [|z l]; simpl; [by constructor|].
  destruct (le x z); constructor; [done|]. by inversion Hhd.
Qed.

Lemma insert_sorted_Sorted (x : A) (l : list A) :
  Sorted (λ a b, le a b) l → Sorted (λ a b, le a b) (insert_sorted le x l).
Proof.
  induction 1 as [|y l Hs IH Hhd]; simpl.
  - by repeat constructor.
  - destruct (le x y) eqn:Hxy.
    + constructor; [by constructor|]. constructor. by rewrite Hxy.
    + constructor; [done|]. apply insert_sorted_HdRel; [|done].
      destruct (le_total x y) as [H|H]; [|done]. by rewrite Hxy in H.
Qed.

Lemma sorted_Sorted (l : list A) : Sorted (λ a b, le a b) (sorted le l).
Proof.
  induction l as [|x l IH]; simpl; [constructor|].
  by apply insert_sorted_Sorted.
Qed.

Lemma sorted_reverse_Sorted (l : list A) :
  Sorted (λ a b, le b a) (sorted_reverse le l).
Proof.
  unfold sorted_reverse.
  apply (Sorted_reverse (λ a b, le a b)), sorted_Sorted.
Qed.
End SortedFacts.

(** ** Facts about [Counter] and the frequency table *)

Section DictFacts.
Context {V : Type}.
Implicit Types (d : dict string V) (k : string).

Lemma dict_get_None d k : dict_get d k = None ↔ k ∉ dict_keys d.
Proof.
  unfold dict_keys. induction d as [|[k' v'] d IH]; csimpl.
  - split; [intros _; apply not_elem_of_nil|done].
  - rewrite not_elem_of_cons. destruct (decide (k' = k)) as [->|Hne].
    + split; [done|]. by intros [? _].
    + rewrite IH. split; [by intros ?; split|by intros [_ ?]].
Qed.

Lemma dict_set_keys d k v :
  dict_keys (dict_set d k v)
  = if dict_get d k is Some _ then dict_keys d else dict_keys d ++ [k].
Proof.
  unfold dict_keys. induction d as [|[k' v'] d IH]; csimpl; [done|].
  destruct (decide (k' = k)) as [->|Hne]; csimpl; [done|].
  rewrite IH. by destruct (dict_get d k).
Qed.

Lemma dict_set_NoDup d k v :
  NoDup (dict_keys d) → NoDup (dict_keys (dict_set d k v)).
Proof.
  intros Hnd. rewrite dict_set_keys.
  destruct (dict_get d k) eqn:Hget; [done|].
  apply NoDup_app. split; [done|]. split; [|apply NoDup_singleton].
  intros x Hx ->%list_elem_of_singleton. by apply dict_get_None in Hget.
Qed.

Lemma dict_pop_keys_subseteq d k : dict_keys (dict_pop d k) ⊆ dict_keys d.
Proof.
  unfold dict_keys. induction d as [|[k' v'] d IH]; csimpl; [done|].
  destruct (decide (k' = k)); csimpl.
  - intros x Hx. by right.
  - intros x [->|Hx]%elem_of_cons; [by left|]. right. by apply IH.
Qed.

Lemma dict_pop_not_elem d k :
  NoDup (dict_keys d) → k ∉ dict_keys (dict_pop d k).
Proof.
  unfold dict_keys. induction d as [|[k' v'] d IH]; csimpl.
  - intros _. apply not_elem_of_nil.
  - intros [Hk' Hnd]%NoDup_cons. destruct (decide (k' = k)) as [->|Hne];
      csimpl; [done|].
    rewrite not_elem_of_cons. split; [done|]. by apply IH.
Qed.
End DictFacts.

Lemma Counter_fold_NoDup (xs : list string) (d : dict string nat) :
  NoDup (dict_keys d) →
  NoDup (dict_keys
           (foldl (λ d x, dict_set d x (S (default 0 (dict_get d x)))) d xs)).
Proof.
  revert d. induction xs as [|x xs IH]; intros d Hnd; simpl; [done|].
  by apply IH, dict_set_NoDup.
Qed.

Lemma Counter_fold_keys (xs : list string) (d : dict string nat) (c : string) :
  c ∈ dict_keys
        (foldl (λ d x, dict_set d x (S (default 0 (dict_get d x)))) d xs) →
  c ∈ dict_keys d ∨ c ∈ xs.
Proof.
  revert d. induction xs as [|x xs IH]; intros d Hc; simpl in *; [by left|].
  apply IH in Hc as [Hc|Hc]; [|right; by right].
  rewrite dict_set_keys in Hc. destruct (dict_get d x); [by left|].
  apply elem_of_app in Hc as [Hc|Hc%list_elem_of_singleton]; [by left|].
  right. subst. by left.
Qed.

Lemma Counter_NoDup (xs : list string) : NoDup (dict_keys (Counter xs)).
Proof. apply Counter_fold_NoDup, NoDup_nil_2. Qed.

Lemma Counter_keys (xs : list string) (c : string) :
  c ∈ dict_keys (Counter xs) → c ∈ xs.
Proof.
  intros Hc. apply Counter_fold_keys in Hc as [Hc|Hc]; [|done].
  by apply elem_of_nil in Hc.
Qed.

(** The missing sentinel is not ranked, and every ranked label occurs in
    the ground truth. *)
Lemma freq_without_missing (r : Results) : missing r ∉ dict_keys (freq r).
Proof.
  unfold freq, dict_mem. case_bool_decide as Hmem.
  - apply dict_pop_not_elem, Counter_NoDup.
  - apply dict_get_None. by apply eq_None_not_Some.
Qed.

Lemma freq_keys_in_ytrue (r : Results) (c : string) :
  c ∈ dict_keys (freq r) → c ∈ ytrue r.
Proof.
  unfold freq. intros Hc. apply Counter_keys.
  destruct (dict_mem _ _); [by apply dict_pop_keys_subseteq in Hc|done].
Qed.

(** ** Class orderings *)

Lemma by_key_total {A} (key : A → nat) (a b : A) :
  by_key key a b ∨ by_key key b a.
Proof.
  unfold by_key. destruct (decide (key a ≤ key b)) as [H|H].
  - left. by apply Is_true_true, Nat.leb_le.
  - right. apply Is_true_true, Nat.leb_le. lia.
Qed.

Lemma Sorted_weaken {A} (R R' : relation A) (l : list A) :
  (∀ a b, R a b → R' a b) → Sorted R l → Sorted R' l.
Proof.
  intros Himp. induction 1 as [|x l Hs IH Hhd]; constructor; [done|].
  destruct Hhd; constructor. by apply Himp.
Qed.

Lemma az_classes_Permutation (r : Results) : az_classes r ≡ₚ classes r.
Proof. apply sorted_Permutation. Qed.

Lemma az_classes_Sorted (r : Results) : Sorted String.le (az_classes r).
Proof. apply (sorted_Sorted String.leb), String.le_total. Qed.

(** The za ordering is the az ordering read backwards. *)
Lemma za_classes_reverse (r : Results) : za_classes r = reverse (az_classes r).
Proof.
  unfold za_classes, az_classes, sorted_reverse. f_equal.
  apply (Sorted_unique String.le).
  - apply (sorted_Sorted String.leb), String.le_total.
  - apply (sorted_Sorted String.leb), String.le_total.
  - by rewrite !sorted_Permutation, reverse_Permutation.
Qed.

(** mc and lc rank exactly the labels of the frequency table: the labels
    that occur in the ground truth, without the missing sentinel. *)
Lemma mc_classes_Permutation (r : Results) :
  mc_classes r ≡ₚ dict_keys (freq r).
Proof. apply sorted_reverse_Permutation. Qed.

Lemma lc_classes_Permutation (r : Results) :
  lc_classes r ≡ₚ dict_keys (freq r).
Proof. apply sorted_Permutation. Qed.

Lemma mc_classes_Sorted (r : Results) :
  Sorted (λ a b, freq_get r b ≤ freq_get r a) (mc_classes r).
Proof.
  eapply Sorted_weaken;
    [|apply (sorted_reverse_Sorted (by_key (freq_get r))), by_key_total].
  intros a b H. by apply Nat.leb_le, Is_true_true.
Qed.

Lemma lc_classes_Sorted (r : Results) :
  Sorted (λ a b, freq_get r a ≤ freq_get r b) (lc_classes r).
Proof.
  eapply Sorted_weaken;
    [|apply (sorted_Sorted (by_key (freq_get r))), by_key_total].
  intros a b H. by apply Nat.leb_le, Is_true_true.
Qed.

Lemma mc_classes_ranked (r : Results) (c : string) :
  c ∈ mc_classes r → c ≠ missing r ∧ c ∈ ytrue r.
Proof.
  rewrite mc_classes_Permutation. intros Hc. split.
  - intros ->. by apply (freq_without_missing r).
  - by apply freq_keys_in_ytrue.
Qed.

Lemma lc_classes_ranked (r : Results) (c : string) :
  c ∈ lc_classes r → c ≠ missing r ∧ c ∈ ytrue r.
Proof.
  rewrite lc_classes_Permutation. intros Hc. split.
  - intros ->. by apply (freq_without_missing r).
  - by apply freq_keys_in_ytrue.
Qed.

(** C3 (the code at the failing input): with classes [cat; dog] and ground
    truth [cat; missing], az is [cat; dog] and za its reverse, but mc and lc
    are both [cat]: the class "dog", which never occurs in the ground
    truth, is dropped, so neither is a permutation of az. *)
Theorem orderings_unseen_class :
  az_classes Examples.det_unseen = ["cat"; "dog"]
  ∧ za_classes Examples.det_unseen = ["dog"; "cat"]
  ∧ mc_classes Examples.det_unseen = ["cat"]
  ∧ lc_classes Examples.det_unseen = ["cat"]
  ∧ ¬ mc_classes Examples.det_unseen ≡ₚ az_classes Examples.det_unseen
  ∧ ¬ lc_classes Examples.det_unseen ≡ₚ az_classes Examples.det_unseen.
Proof.
  do 4 (split; [reflexivity|]).
  split; intros Hperm; apply Permutation_length in Hperm; discriminate.
Qed.

(** ** Confusion matrices of the bundle *)

Lemma grid_Permutation {A B} (g : A → A → B) (l l' : list A) :
  l ≡ₚ l' →
  concat (map (λ t, map (g t) l) l) ≡ₚ concat (map (λ t, map (g t) l') l').
Proof.
  intros Hp.
  transitivity (concat (map (λ t, map (g t) l') l)).
  - assert (∀ rows, concat (map (λ t, map (g t) l) rows)
                      ≡ₚ concat (map (λ t, map (g t) l') rows)) as Hrows.
    { induction rows as [|t rows IH]; simpl; [done|].
      apply Permutation_app; [|done]. by apply Permutation_map. }
    apply Hrows.
  - rewrite <- !flat_map_concat_map. by apply Permutation_flat_map.
Qed.

(** The labels of a matrix are the ordering followed by the sentinel. *)
Lemma confusion_matrix_labels (r : Results) (cls : list string) :
  missing r ∉ cls → (_confusion_matrix r (Some cls)).2 = cls ++ [missing r].
Proof.
  intros Hin. unfold _confusion_matrix. cbn [default from_option id snd].
  by rewrite bool_decide_eq_false_2.
Qed.

(** Reordering the classes permutes the cells of the matrix. *)
Lemma confusion_matrix_Permutation (r : Results) (cls cls' : list string) :
  cls ≡ₚ cls' →
  concat (_confusion_matrix r (Some cls)).1
  ≡ₚ concat (_confusion_matrix r (Some cls')).1.
Proof.
  intros Hp. unfold _confusion_matrix. cbn [default from_option id fst].
  apply grid_Permutation.
  destruct (decide (missing r ∈ cls)) as [Hin|Hin].
  - rewrite !bool_decide_eq_true_2; [done| by rewrite <- Hp |done].
  - rewrite !bool_decide_eq_false_2; [|by rewrite <- Hp|done].
    by apply Permutation_app.
Qed.

Section MatricesAgree.
Context {colorscale : Type} (_to_log_colorscale : string → nat → colorscale).

(** The default, az and za matrices always hold the same cells; the mc and
    lc matrices do as soon as the frequency table ranks every class. *)
Lemma matrices_agree (r : Results) :
  let cms := get_confusion_matrices _to_log_colorscale r in
  concat (cm_matrix (cm_az cms)) ≡ₚ concat (cm_matrix (cm_default cms))
  ∧ concat (cm_matrix (cm_za cms)) ≡ₚ concat (cm_matrix (cm_default cms))
  ∧ (dict_keys (freq r) ≡ₚ classes r →
     concat (cm_matrix (cm_mc cms)) ≡ₚ concat (cm_matrix (cm_default cms))
     ∧ concat (cm_matrix (cm_lc cms)) ≡ₚ concat (cm_matrix (cm_default cms))).
Proof.
  cbv zeta. unfold get_confusion_matrices, ordered_matrix.
  cbn [cm_default cm_az cm_za cm_mc cm_lc].
  assert (∀ cls, cls ≡ₚ classes r →
                 concat (_confusion_matrix r (Some cls)).1
                 ≡ₚ concat (_confusion_matrix r None).1) as Hagree.
  { intros cls Hp.
    change (_confusion_matrix r None)
      with (_confusion_matrix r (Some (classes r))).
    by apply confusion_matrix_Permutation. }
  repeat split.
  - apply (Hagree (az_classes r)), az_classes_Permutation.
  - apply (Hagree (za_classes r)), sorted_reverse_Permutation.
  - apply (Hagree (mc_classes r)). by rewrite mc_classes_Permutation.
  - apply (Hagree (lc_classes r)). by rewrite lc_classes_Permutation.
Qed.

Lemma matrix_sum_Permutation (m m' : list (list nat)) :
  concat m ≡ₚ concat m' → matrix_sum m = matrix_sum m'.
Proof. unfold matrix_sum. by intros ->. Qed.
End MatricesAgree.

Section MatricesFacts.
Context {colorscale : Type} (_to_log_colorscale : string → nat → colorscale).

(** C2 (the code at the failing input): for the same results the default,
    az and za matrices are 3 x 3 and sum to 2, while the mc and lc
    matrices are 2 x 2 and sum to 1: the unmatched "dog" prediction is in
    no cell once "dog" is dropped from the ordering. *)
Theorem matrices_unseen_class :
  let cms := get_confusion_matrices _to_log_colorscale Examples.det_unseen in
  cm_matrix (cm_default cms) = [[1; 0; 0]; [0; 0; 0]; [0; 1; 0]]
  ∧ cm_matrix (cm_az cms) = [[1; 0; 0]; [0; 0; 0]; [0; 1; 0]]
  ∧ cm_matrix (cm_za cms) = [[0; 0; 0]; [0; 1; 0]; [1; 0; 0]]
  ∧ cm_matrix (cm_mc cms) = [[1; 0]; [0; 0]]
  ∧ cm_matrix (cm_lc cms) = [[1; 0]; [0; 0]]
  ∧ matrix_sum (cm_matrix (cm_default cms)) = 2
  ∧ matrix_sum (cm_matrix (cm_mc cms)) = 1
  ∧ matrix_sum (cm_matrix (cm_lc cms)) = 1.
Proof. cbv zeta. repeat split; reflexivity. Qed.
End MatricesFacts.

(** ** Drill-down *)

Section DrillDown.
Context {colorscale : Type}.
Implicit Types (w : World colorscale) (req : Request).

Lemma last_snoc_event (l : list (event colorscale)) (e : event colorscale) :
  last (l ++ [e]) = Some e.
Proof. apply last_snoc. Qed.

(** For a detection run, [load_view] sets whatever view the detection
    branch computes, whichever comparison fields are active. *)
Lemma load_view_detection req w (info : EvaluationInfo) (v : View) :
  p_type (params req) ≠ Some "clear" →
  get_evaluation_info (dataset req) (view_key req w) = Ok info →
  type_ (config info) = "detection" →
  compare_resolves req w →
  (∀ g2 p2,
     detection_view info (view_key req w) g2 p2 (label_root (dataset req))
       (default "(none)" (st_missing w)) (p_type (params req))
       (o_x (p_options (params req))) (o_y (p_options (params req)))
       (o_field (p_options (params req))) = Ok (Some v)) →
  sets_view req w v.
Proof.
  intros Hclear Hinfo Hdet Hcmp Hview. unfold sets_view, load_view.
  rewrite (bool_decide_eq_false_2 _ Hclear).
  unfold view_key in Hinfo, Hview.
  unfold mbind, M_bind, get_view, emit, lift, get_missing, mret, M_ret.
  cbn [store st_view st_missing trace]. rewrite Hinfo.
  destruct (nonempty (v_compareKey (st_view w))) eqn:Hne.
  - destruct (Hcmp Hne) as [info2 Hinfo2].
    cbn [store st_view st_missing trace]. rewrite Hinfo2.
    cbn [store st_view st_missing trace]. rewrite Hdet.
    rewrite (bool_decide_eq_false_2 ("detection" = "classification"))
      by done.
    rewrite (bool_decide_eq_true_2 ("detection" = "detection")) by done.
    rewrite Hview. eexists. split; [reflexivity|].
    cbn [trace]. apply last_snoc_event.
  - cbn [store st_view st_missing trace]. rewrite Hdet.
    rewrite (bool_decide_eq_false_2 ("detection" = "classification"))
      by done.
    rewrite (bool_decide_eq_true_2 ("detection" = "detection")) by done.
    rewrite Hview. eexists. split; [reflexivity|].
    cbn [trace]. apply last_snoc_event.
Qed.

(** The chain of the matrix drill-down, with the sentinel the panel
    holds in its "missing" state ("(none)" when the state is not set): for
    a detection evaluation, a drill-down into the cell (x, y) with y that
    sentinel selects the predicted labels with label = x and evaluation
    field "fp"; with x that sentinel and y not, it selects the
    ground-truth labels with label = y and evaluation field "fn". *)
Lemma matrix_drill_down req w (info : EvaluationInfo) :
  p_type (params req) = Some "matrix" →
  get_evaluation_info (dataset req) (view_key req w) = Ok info →
  type_ (config info) = "detection" →
  compare_resolves req w →
  let x := o_x (p_options (params req)) in
  let y := o_y (p_options (params req)) in
  let missing := default "(none)" (st_missing w) in
  (y = Some missing →
   sets_view req w
     [FilterLabels (pred_field (config info))
        (And (Eq (F (Some "label")) x) (Eq (F (view_key req w)) (Some "fp")))
        true])
  ∧ (x = Some missing → y ≠ Some missing →
     sets_view req w
       [FilterLabels (gt_field (config info))
          (And (Eq (F (Some "label")) y) (Eq (F (view_key req w)) (Some "fn")))
          true]).
Proof.
  intros Hty Hinfo Hdet Hcmp x y missing.
  assert (p_type (params req) ≠ Some "clear") as Hclear
    by (rewrite Hty; discriminate).
  split.
  - intros Hy. apply (load_view_detection req w info); try done.
    intros g2 p2. unfold detection_view. rewrite Hty.
    rewrite (bool_decide_eq_false_2 (Some "matrix" = Some "class")) by done.
    rewrite (bool_decide_eq_true_2 (Some "matrix" = Some "matrix")) by done.
    fold missing. fold y. by rewrite (bool_decide_eq_true_2 _ Hy).
  - intros Hx Hy. apply (load_view_detection req w info); try done.
    intros g2 p2. unfold detection_view. rewrite Hty.
    rewrite (bool_decide_eq_false_2 (Some "matrix" = Some "class")) by done.
    rewrite (bool_decide_eq_true_2 (Some "matrix" = Some "matrix")) by done.
    fold missing. fold y. fold x.
    by rewrite (bool_decide_eq_false_2 _ Hy), (bool_decide_eq_true_2 _ Hx).
Qed.
End DrillDown.

(** Scenario 3: x = "dog", y = missing sentinel. *)
Lemma matrix_drill_down_scenario :
  let req := Examples.click_cell "dog" "(none)" in
  let w := Examples.world "eval_det" "id_det" Examples.empty_store in
  p_type (params req) = Some "matrix"
  ∧ get_evaluation_info (dataset req) (view_key req w) = Ok Examples.det_info
  ∧ type_ (config Examples.det_info) = "detection"
  ∧ compare_resolves req w
  ∧ o_y (p_options (params req)) = Some (default "(none)" (st_missing w))
  ∧ sets_view req w
      [FilterLabels "predictions"
         (And (Eq (F (Some "label")) (Some "dog"))
              (Eq (F (Some "eval_det")) (Some "fp")))
         true].
Proof.
  intros req w.
  assert (compare_resolves req w) as Hcmp by (intros Hne; discriminate Hne).
  do 3 (split; [reflexivity|]). split; [exact Hcmp|]. split; [reflexivity|].
  exact (proj1 (matrix_drill_down req w Examples.det_info
                  eq_refl eq_refl eq_refl Hcmp) eq_refl).
Defined.

(** ** Pending evaluations *)

Section Pending.
Lemma reconcile_stored_fold (eval_keys : list string) (l pe upd : list Pending)
    (us : bool) :
  foldl (λ acc pending,
           let '(pending_evaluations, updated, update_store) := acc in
           if key_in (eval_key pending) eval_keys
           then (pending_evaluations, updated, true)
           else (pending_evaluations ++ [pending], updated ++ [pending],
                 update_store))
        (pe, upd, us) l
  = (pe ++ kept eval_keys l, upd ++ kept eval_keys l,
     us || existsb (λ p, key_in (eval_key p) eval_keys) l).
Proof.
  revert pe upd us. induction l as [|p l IH]; intros pe upd us; simpl.
  - by rewrite !app_nil_r, orb_false_r.
  - unfold kept. rewrite filter_cons. fold (kept eval_keys l).
    destruct (key_in (eval_key p) eval_keys) eqn:Hin; rewrite IH; simpl.
    + by rewrite orb_true_r.
    + by rewrite <- !app_assoc.
Qed.

Lemma reconcile_stored_spec (eval_keys : list string) (l : list Pending) :
  reconcile_stored eval_keys l
  = (kept eval_keys l, kept eval_keys l,
     existsb (λ p, key_in (eval_key p) eval_keys) l).
Proof. unfold reconcile_stored. by rewrite reconcile_stored_fold. Qed.

Lemma kept_all (eval_keys : list string) (l : list Pending) :
  existsb (λ p, key_in (eval_key p) eval_keys) l = false →
  kept eval_keys l = l.
Proof.
  induction l as [|p l IH]; simpl; [done|].
  rewrite orb_false_iff. intros [Hp Hl]. unfold kept.
  rewrite filter_cons, decide_True by done. f_equal. by apply IH.
Qed.

Lemma kept_nothing_dropped (eval_keys : list string) (l : list Pending) :
  existsb (λ p, key_in (eval_key p) eval_keys) (kept eval_keys l) = false.
Proof.
  induction l as [|p l IH]; simpl; [done|].
  unfold kept. rewrite filter_cons. fold (kept eval_keys l).
  destruct (decide _) as [Hp|Hp]; simpl; [by rewrite Hp|done].
Qed.

Lemma kept_idem (eval_keys : list string) (l : list Pending) :
  kept eval_keys (kept eval_keys l) = kept eval_keys l.
Proof. apply kept_all, kept_nothing_dropped. Qed.
End Pending.

Section Reconcile.
Context {colorscale : Type}.
Implicit Types (w : World colorscale) (req : Request).

Lemma load_pending_evaluations_run req w :
  load_pending_evaluations req w =
    if existsb (materialized req) (stored_pending req w)
    then (Ok (),
          {| store := with_pending req w
                        (kept (list_evaluations (dataset req))
                              (stored_pending req w));
             st_view := st_view w; st_missing := st_missing w;
             trace := (trace w
                         ++ [StoreSet (Some "pending_evaluations") None])
                        ++ [SetData "pending_evaluations"
                                    (DPending (reconciled req w))] |})
    else (Ok (),
          {| store := store w;
             st_view := st_view w; st_missing := st_missing w;
             trace := trace w
                        ++ [SetData "pending_evaluations"
                                    (DPending (reconciled req w))] |}).
Proof.
  unfold load_pending_evaluations, reconciled, stored_pending, materialized.
  unfold mbind, M_bind, get_store. cbn [store].
  rewrite reconcile_stored_spec.
  destruct (existsb _ _); reflexivity.
Qed.
End Reconcile.

Section ReconcileTwice.
Context {colorscale : Type}.
Implicit Types (w : World colorscale) (req : Request).

(** C8: two consecutive calls of [load_pending_evaluations] on the same
    dataset, the second one starting from the store the first one left,
    publish the same pending sequence; the second call writes nothing to
    the store, and the first writes at most once, exactly when a stored
    entry was dropped. *)
Theorem reconcile_twice req w :
  ∃ w1 w2 writes,
    load_pending_evaluations req w = (Ok (), w1)
    ∧ load_pending_evaluations req w1 = (Ok (), w2)
    ∧ emitted w w1
        (writes ++ [SetData "pending_evaluations"
                            (DPending (reconciled req w))])
    ∧ emitted w1 w2
        [SetData "pending_evaluations" (DPending (reconciled req w))]
    ∧ ((writes = []
        ∧ ∀ p, p ∈ stored_pending req w → materialized req p = false)
       ∨ (writes = [StoreSet (Some "pending_evaluations") None]
          ∧ ∃ p, p ∈ stored_pending req w ∧ materialized req p = true)).
Proof.
  rewrite load_pending_evaluations_run.
  destruct (existsb (materialized req) (stored_pending req w)) eqn:Hdrop.
  - set (w1 := {| store := with_pending req w
                              (kept (list_evaluations (dataset req))
                                    (stored_pending req w));
                   st_view := st_view w; st_missing := st_missing w;
                   trace := (trace w
                               ++ [StoreSet (Some "pending_evaluations") None])
                              ++ [SetData "pending_evaluations"
                                          (DPending (reconciled req w))] |}).
    assert (stored_pending req w1
            = kept (list_evaluations (dataset req)) (stored_pending req w))
      as Hstored.
    { unfold stored_pending, w1, with_pending. simpl.
      by rewrite lookup_insert_eq. }
    assert (reconciled req w1 = reconciled req w) as Hrec
      by (unfold reconciled; by rewrite Hstored, kept_idem).
    assert (existsb (materialized req) (stored_pending req w1) = false)
      as Hkept by (rewrite Hstored; apply kept_nothing_dropped).
    exists w1, (load_pending_evaluations req w1).2,
      [StoreSet (Some "pending_evaluations") None].
    split; [reflexivity|].
    rewrite load_pending_evaluations_run, Hkept, Hrec.
    split; [reflexivity|]. unfold emitted. cbn [trace snd w1].
    split; [by rewrite <- app_assoc|]. split; [reflexivity|].
    right. split; [done|].
    apply existsb_exists in Hdrop as (p & Hin & Hp).
    exists p. by rewrite list_elem_of_In.
  - eexists _, _, []. split; [reflexivity|].
    rewrite load_pending_evaluations_run.
    change (stored_pending req _) with (stored_pending req w).
    change (reconciled req _) with (reconciled req w).
    rewrite Hdrop. split; [reflexivity|]. unfold emitted. cbn [trace].
    split; [reflexivity|]. split; [reflexivity|].
    left. split; [done|]. intros p Hin.
    destruct (materialized req p) eqn:Hp; [|done].
    assert (existsb (materialized req) (stored_pending req w) = true)
      as Hex by (apply existsb_exists; exists p; by rewrite <- list_elem_of_In).
    congruence.
Qed.
End ReconcileTwice.

(** ** Unsupported evaluation types *)

Section Unsupported.
Context {colorscale : Type} (_to_log_colorscale : string → nat → colorscale).
Context (ENABLE_CACHING : bool).
Context (store_set_raises
           : World colorscale → option string → EvaluationData colorscale
             → option exn).
Implicit Types (w : World colorscale) (req : Request).

(** C9: for an evaluation of an unsupported type with no cached bundle,
    [load_evaluation] completes without raising, publishes
    {error: "unsupported", info} under evaluation_<key>_error, leaves the
    store alone and never loads the evaluation results. *)
Theorem unsupported_evaluation req w (info : EvaluationInfo) :
  cache (store w) !! computed_eval_id req w = None →
  get_evaluation_info (dataset req) (computed_eval_key req w) = Ok info →
  type_ (config info) ∉ SUPPORTED_EVALUATION_TYPES →
  ∃ w' evs,
    load_evaluation _to_log_colorscale ENABLE_CACHING store_set_raises req w
    = (Ok (), w')
    ∧ store w' = store w
    ∧ emitted w w' evs
    ∧ evs = [GetEvaluationInfo (computed_eval_key req w);
             SetData ("evaluation_" +:+ fmt (computed_eval_key req w)
                        +:+ "_error")
                     (DError "unsupported" (serialize info))]
    ∧ Forall (λ e, is_results_load e = false) evs.
Proof.
  intros Hcache Hinfo Hty. unfold computed_eval_id in Hcache.
  unfold computed_eval_key in *.
  eexists _, _. unfold load_evaluation.
  unfold mbind, M_bind, get_view, get_store, emit, lift, set_data.
  cbn [store st_view st_missing trace].
  assert ((if ENABLE_CACHING
           then cache (store w)
                !! (from_option Some (v_id (st_view w)) (p_id (params req)))
           else None) = None) as -> by (destruct ENABLE_CACHING; done).
  rewrite Hinfo. cbn [store st_view st_missing trace].
  rewrite (bool_decide_eq_false_2 _ Hty). cbn [negb].
  split; [reflexivity|]. cbn [store trace].
  split; [reflexivity|]. unfold emitted. cbn [trace].
  split; [by rewrite <- app_assoc|]. split; [reflexivity|].
  by repeat constructor.
Qed.
End Unsupported.

(** Scenario 4: the unsupported type "regression". *)
Lemma unsupported_evaluation_scenario :
  let req := Examples.plain_request in
  let w := Examples.world "eval_reg" "id_reg" Examples.empty_store in
  let info := Examples.cfg "regression" None in
  cache (store w) !! computed_eval_id req w = None
  ∧ get_evaluation_info (dataset req) (computed_eval_key req w) = Ok info
  ∧ (type_ (config info) ∉ SUPPORTED_EVALUATION_TYPES)
  ∧ ∃ w',
      load_evaluation (λ _ _, ()) true (λ _ _ _, None) req w = (Ok (), w')
      ∧ trace w' = [GetEvaluationInfo (Some "eval_reg");
                    SetData "evaluation_eval_reg_error"
                            (DError "unsupported" "{}")].
Proof.
  intros req w info.
  assert (type_ (config info) ∉ SUPPORTED_EVALUATION_TYPES) as Hty.
  { unfold SUPPORTED_EVALUATION_TYPES. rewrite !not_elem_of_cons.
    repeat split; [discriminate..|apply not_elem_of_nil]. }
  split; [reflexivity|]. split; [reflexivity|]. split; [exact Hty|].
  destruct (unsupported_evaluation (λ _ _, ()) true (λ _ _ _, None) req w info
              eq_refl eq_refl Hty) as (w' & evs & Hrun & _ & Hem & Hevs & _).
  exists w'. split; [exact Hrun|]. unfold emitted in Hem.
  rewrite Hem, Hevs. reflexivity.
Defined.


(** ** Status updates *)

Section Status.
Context {colorscale : Type}.
Implicit Types (w : World colorscale) (req : Request).

Lemma can_edit_status_granted : can_edit_status = true.
Proof. reflexivity. Qed.

(** A status with a label is stored, published and acknowledged. *)
Lemma set_status_labelled req w (s label : string) :
  p_status (params req) = Some s →
  dict_get STATUS_LABELS s = Some label →
  ∃ w',
    set_status req w = (Ok (), w')
    ∧ statuses (store w') = Some (recorded req w)
    ∧ emitted w w'
        [StoreSet (Some "statuses") None;
         SetData "statuses" (DStatuses (recorded req w));
         Notify ("Status updated to " +:+ label +:+ " successfully!")
                "success"].
Proof.
  intros Hs Hl. eexists. unfold set_status, recorded.
  rewrite can_edit_status_granted. cbn [negb].
  unfold mbind, M_bind, get_view, get_store, store_set_statuses, set_data,
    notify, put_store, emit, lift.
  cbn [store st_view st_missing trace mbind M_bind].
  rewrite Hs. cbn [mbind option_bind]. rewrite Hl.
  split; [reflexivity|]. cbn [store statuses trace].
  split; [reflexivity|]. unfold emitted. cbn [trace].
  by rewrite <- !app_assoc.
Qed.
End Status.

(** C10 (the code at the failing input): a status outside [STATUS_LABELS]
    is written to the store and published, then the label lookup raises
    [KeyError]: no notification is sent and the handler does not
    complete. *)
Theorem set_status_unknown_label :
  let w := Examples.world "eval_det" "id_det" Examples.empty_store in
  let stored : gmap (option string) (option string) :=
    {[ Some "id_det" := Some "archived" ]} in
  set_status (Examples.status_request (Some "archived")) w
  = (Raise KeyError,
     {| store := {| statuses := Some stored; notes := None;
                    pending_evaluations := None; cache := ∅ |};
        st_view := st_view w;
        st_missing := st_missing w;
        trace := [StoreSet (Some "statuses") None;
                  SetData "statuses" (DStatuses stored)] |}).
Proof. vm_compute. reflexivity. Qed.

(** ** Further properties of tp / fp / fn *)

(** For a binary classification over [neg; pos], tp + fp is the number of
    items predicted positive, tp + fn the number of positive items, and
    the three counts together never exceed the number of items. *)
Theorem binary_totals (info : EvaluationInfo) (r : Results) (neg pos : string) :
  type_ (config info) = "classification" →
  method (config info) = Some "binary" →
  classes r = [neg; pos] →
  aligned r →
  ∃ tp fp fn,
    get_tp_fp_fn info r = Ok (Some tp, Some fp, Some fn)
    ∧ tp + fp = count_items (λ t p, p = pos) r
    ∧ tp + fn = count_items (λ t p, t = pos) r
    ∧ tp + fp + fn ≤ length (ytrue r).
Proof.
  intros Hty Hme Hcls Hal.
  rewrite (get_tp_fp_fn_binary info r neg pos Hty Hme Hcls Hal).
  eexists _, _, _. split; [reflexivity|].
  assert (∀ (P Q R : string → string → Prop)
            `{∀ t p, Decision (P t p)} `{∀ t p, Decision (Q t p)}
            `{∀ t p, Decision (R t p)},
            (∀ t p, (P t p ∧ ¬ Q t p ∧ R t p) ∨ (¬ P t p ∧ Q t p ∧ R t p)
                    ∨ (¬ P t p ∧ ¬ Q t p ∧ ¬ R t p)) →
            count_items P r + count_items Q r = count_items R r) as Hadd.
  { intros P Q R ? ? ? Hcases. unfold count_items.
    apply (length_filter_add (λ tp, P tp.1 tp.2) (λ tp, Q tp.1 tp.2)
                             (λ tp, R tp.1 tp.2)).
    apply Forall_forall. intros [t p] _. apply Hcases. }
  assert (count_items (λ t p, t = pos ∧ p = pos) r
          + count_items (λ t p, t ≠ pos ∧ p = pos) r
          = count_items (λ t p, p = pos) r) as Hpred.
  { apply Hadd. intros t p.
    destruct (decide (t = pos)), (decide (p = pos)); tauto. }
  assert (count_items (λ t p, t = pos ∧ p = pos) r
          + count_items (λ t p, t = pos ∧ p ≠ pos) r
          = count_items (λ t p, t = pos) r) as Htrue.
  { apply Hadd. intros t p.
    destruct (decide (t = pos)), (decide (p = pos)); tauto. }
  assert (count_items (λ t p, p = pos) r
          + count_items (λ t p, t = pos ∧ p ≠ pos) r
          = count_items (λ t p, t = pos ∨ p = pos) r) as Hany.
  { apply Hadd. intros t p.
    destruct (decide (t = pos)), (decide (p = pos)); tauto. }
  split; [exact Hpred|]. split; [exact Htrue|].
  rewrite Hpred, Hany. unfold count_items.
  etrans; [apply length_filter|]. rewrite length_zip_with. lia.
Qed.

Lemma binary_totals_scenario :
  type_ (config Examples.eval_a_info) = "classification"
  ∧ method (config Examples.eval_a_info) = Some "binary"
  ∧ classes Examples.eval_a = ["neg"; "pos"]
  ∧ aligned Examples.eval_a
  ∧ ∃ tp fp fn,
      get_tp_fp_fn Examples.eval_a_info Examples.eval_a
      = Ok (Some tp, Some fp, Some fn)
      ∧ tp + fp = count_items (λ t p, p = "pos") Examples.eval_a
      ∧ tp + fn = count_items (λ t p, t = "pos") Examples.eval_a
      ∧ tp + fp + fn ≤ length (ytrue Examples.eval_a).
Proof.
  do 4 (split; [reflexivity|]).
  exact (binary_totals Examples.eval_a_info Examples.eval_a "neg" "pos"
           eq_refl eq_refl eq_refl eq_refl).
Defined.

(** The unpacking [neg_label, pos_label = results.classes] needs exactly
    two classes: with any other number a binary classification raises
    [ValueError], whatever the scored items are. *)
Theorem binary_needs_two_classes (info : EvaluationInfo) (r : Results) :
  type_ (config info) = "classification" →
  method (config info) = Some "binary" →
  length (classes r) ≠ 2 →
  get_tp_fp_fn info r = Raise ValueError.
Proof.
  intros Hty Hme Hlen. unfold get_tp_fp_fn. rewrite Hty, Hme.
  rewrite !bool_decide_eq_true_2 by done. cbn [andb].
  destruct (classes r) as [|a [|b [|c l]]]; simpl in *; done.
Qed.

Lemma binary_needs_two_classes_example :
  let r := Examples.res ["a"; "b"; "c"] ["a"] ["b"] None in
  type_ (config Examples.eval_a_info) = "classification"
  ∧ method (config Examples.eval_a_info) = Some "binary"
  ∧ length (classes r) ≠ 2
  ∧ get_tp_fp_fn Examples.eval_a_info r = Raise ValueError.
Proof.
  intros r. assert (length (classes r) ≠ 2) as Hlen by (simpl; lia).
  do 2 (split; [reflexivity|]). split; [exact Hlen|].
  exact (binary_needs_two_classes Examples.eval_a_info r eq_refl eq_refl Hlen).
Defined.

(** The three counts are null exactly for the evaluations that are neither
    a binary classification nor a detection. *)
Theorem tp_fp_fn_null_iff (info : EvaluationInfo) (r : Results) :
  get_tp_fp_fn info r = Ok (None, None, None)
  ↔ ¬ (type_ (config info) = "classification"
       ∧ method (config info) = Some "binary")
    ∧ type_ (config info) ≠ "detection".
Proof.
  unfold get_tp_fp_fn. split.
  - intros Hrun.
    destruct (decide (type_ (config info) = "classification")) as [Hc|Hc];
      destruct (decide (method (config info) = Some "binary")) as [Hm|Hm];
      destruct (decide (type_ (config info) = "detection")) as [Hd|Hd];
      try (split; [tauto|done]); exfalso;
      rewrite ?(bool_decide_eq_true_2 _ Hc), ?(bool_decide_eq_false_2 _ Hc),
        ?(bool_decide_eq_true_2 _ Hm), ?(bool_decide_eq_false_2 _ Hm),
        ?(bool_decide_eq_true_2 _ Hd), ?(bool_decide_eq_false_2 _ Hd)
        in Hrun; cbn [andb] in Hrun.
    all: try (destruct (classes r) as [|a [|b [|c l]]]; try discriminate Hrun;
              destruct (Np.and_ _ _); try discriminate Hrun; cbn in Hrun;
              destruct (Np.and_ _ _); try discriminate Hrun; cbn in Hrun;
              destruct (Np.and_ _ _); discriminate Hrun).
    all: destruct (Np.eq_array _ _); discriminate Hrun.
  - intros [Hbin Hd]. rewrite (bool_decide_eq_false_2 _ Hd).
    destruct (decide (type_ (config info) = "classification")) as [Hc|Hc].
    + assert (method (config info) ≠ Some "binary") as Hm by tauto.
      by rewrite (bool_decide_eq_false_2 _ Hm), andb_false_r.
    + by rewrite (bool_decide_eq_false_2 _ Hc).
Qed.

(** ** Per-class averages *)

Lemma dict_get_set {V} (d : dict string V) (k k' : string) (v : V) :
  dict_get (dict_set d k v) k'
  = if decide (k = k') then Some v else dict_get d k'.
Proof.
  induction d as [|[k0 v0] d IH]; simpl.
  - destruct (decide (k = k')); [done|done].
  - destruct (decide (k0 = k)) as [->|Hne]; simpl.
    + destruct (decide (k = k')); [done|done].
    + rewrite IH. destruct (decide (k0 = k')) as [->|?]; [|done].
      rewrite decide_False; done.
Qed.

Lemma dict_get_fold_set {V} (f : string → V) (cls : list string)
    (d : dict string V) (c : string) :
  dict_get (foldl (λ avg c, dict_set avg c (f c)) d cls) c
  = if decide (c ∈ cls) then Some (f c) else dict_get d c.
Proof.
  revert d. induction cls as [|c0 cls IH]; intros d; cbn [foldl].
  - rewrite decide_False; [done|apply not_elem_of_nil].
  - rewrite IH. destruct (decide (c ∈ cls)) as [Hin|Hin].
    + rewrite decide_True; [done|by right].
    + rewrite dict_get_set. destruct (decide (c0 = c)) as [->|Hne].
      * rewrite decide_True; [done|by left].
      * rewrite decide_False; [done|].
        intros [->|?]%elem_of_cons; done.
Qed.

(** After the accumulation loop the counter of a label is the number of
    items predicted as that label, and its sum adds up their values in
    order. *)
Lemma tally_fold (c : string) (l : list (string * option Q))
    (counts : gmap string nat) (sums : gmap string Q) :
  let t := foldl (λ acc item,
                    let '(counts, sums) := acc in
                    let '(yp, conf) := item in
                    (<[yp := S (default 0%nat (counts !! yp))]> counts,
                     <[yp := Qplus (default 0%Q (sums !! yp))
                                   (default 0%Q conf)]> sums))
                 (counts, sums) l in
  default 0%nat (t.1 !! c)
  = default 0%nat (counts !! c) + length (filter (λ yv, yv.1 = c) l)
  ∧ default 0%Q (t.2 !! c)
    = foldl Qplus (default 0%Q (sums !! c))
            ((λ yv, default 0%Q yv.2) <$> filter (λ yv, yv.1 = c) l).
Proof.
  revert counts sums. induction l as [|[yp conf] l IH]; intros counts sums.
  - simpl. split; [lia|done].
  - cbn [foldl]. cbv zeta in IH |- *.
    destruct (IH (<[yp := S (default 0%nat (counts !! yp))]> counts)
                 (<[yp := Qplus (default 0%Q (sums !! yp))
                                (default 0%Q conf)]> sums)) as [IHc IHs].
    rewrite IHc, IHs, filter_cons. cbn [fst].
    destruct (decide (yp = c)) as [->|Hne].
    + rewrite !lookup_insert_eq. cbn. split; [lia|done].
    + rewrite !lookup_insert_ne by done. done.
Qed.

Lemma tally_spec (c : string) (ypred : list string) (vals : list (option Q)) :
  default 0%nat ((tally ypred vals).1 !! c) = length (values_of c ypred vals)
  ∧ default 0%Q ((tally ypred vals).2 !! c)
    = foldl Qplus 0%Q (values_of c ypred vals).
Proof.
  unfold tally, values_of.
  destruct (tally_fold c (zip ypred vals) ∅ ∅) as [Hc Hs].
  rewrite Hc, Hs, !lookup_empty, length_fmap. done.
Qed.

Lemma averages_spec (c : string) (cls ypred : list string)
    (vals : list (option Q)) :
  c ∈ cls →
  dict_get (averages cls (tally ypred vals)) c
  = Some (mean_or_zero (values_of c ypred vals)).
Proof.
  intros Hin. unfold averages.
  rewrite (dict_get_fold_set
             (λ c, let n := default 0%nat ((tally ypred vals).1 !! c) in
                   if (0 <? n)%nat
                   then Qdiv (default 0%Q ((tally ypred vals).2 !! c)) (Qnat n)
                   else 0%Q)).
  rewrite decide_True by done. f_equal. cbv zeta.
  destruct (tally_spec c ypred vals) as [-> ->]. unfold mean_or_zero.
  by destruct (values_of c ypred vals).
Qed.

(** Every class gets an average: the mean of the confidences (IoUs) of the
    items predicted as that class, an absent value counting as 0, and 0
    for a class that no item was predicted as. *)
Theorem class_average (r : Results) (c : string) (vals : list (option Q)) :
  c ∈ classes r →
  (confs r = Some vals →
   ∃ avg, compute_avg_confs r = Ok avg
          ∧ dict_get avg c = Some (mean_or_zero (values_of c (ypred r) vals)))
  ∧ (ious r = Some vals →
     ∃ avg, compute_avg_ious r = Ok avg
            ∧ dict_get avg c = Some (mean_or_zero (values_of c (ypred r) vals))).
Proof.
  intros Hin. split; intros Hvals.
  - unfold compute_avg_confs. rewrite Hvals. eexists. split; [done|].
    by apply averages_spec.
  - unfold compute_avg_ious. rewrite Hvals. eexists. split; [done|].
    by apply averages_spec.
Qed.

Lemma class_average_example :
  let r := Examples.res ["cat"; "dog"; "bird"] ["cat"; "dog"; "cat"]
             ["cat"; "dog"; "cat"] (Some [Some (9 # 10)%Q; None; Some (1 # 2)%Q]) in
  let vals := [Some (9 # 10)%Q; None; Some (1 # 2)%Q] in
  "cat" ∈ classes r
  ∧ confs r = Some vals
  ∧ ∃ avg, compute_avg_confs r = Ok avg
           ∧ dict_get avg "cat"
             = Some (mean_or_zero (values_of "cat" (ypred r) vals)).
Proof.
  intros r vals. assert ("cat" ∈ classes r) as Hin by (by left).
  split; [exact Hin|]. split; [reflexivity|].
  exact (proj1 (class_average r "cat" vals Hin) eq_refl).
Defined.

(** ** The per-class metrics *)

Lemma fold_dict_set_nonempty {V} (f : string → V) (cls : list string)
    (d : dict string V) :
  d ≠ [] ∨ cls ≠ [] → foldl (λ avg c, dict_set avg c (f c)) d cls ≠ [].
Proof.
  revert d. induction cls as [|c cls IH]; intros d Hne; cbn [foldl].
  - by destruct Hne.
  - apply IH. left. apply dict_set_nonempty.
Qed.

Lemma fold_dict_set_NoDup {V} (f : string → V) (cls : list string)
    (d : dict string V) :
  NoDup (dict_keys d) →
  NoDup (dict_keys (foldl (λ avg c, dict_set avg c (f c)) d cls)).
Proof.
  revert d. induction cls as [|c cls IH]; intros d Hnd; cbn [foldl]; [done|].
  by apply IH, dict_set_NoDup.
Qed.

Lemma guarded_item_averages (c : string) (cls ypred : list string)
    (vals : list (option Q)) :
  c ∈ cls →
  guarded_item (Some (averages cls (tally ypred vals))) c
  = Ok (Some (mean_or_zero (values_of c ypred vals))).
Proof.
  intros Hin. unfold guarded_item.
  assert (truthy (Some (averages cls (tally ypred vals))) = true) as ->.
  { unfold truthy.
    destruct (averages cls (tally ypred vals)) eqn:Havg; [|done].
    exfalso. revert Havg. unfold averages. apply fold_dict_set_nonempty.
    right. intros ->. by apply elem_of_nil in Hin. }
  cbn [default from_option id]. by rewrite averages_spec.
Qed.

(** The loop body succeeds for every class once both lookups do, and the
    loop is then a fold of dictionary assignments. *)
Lemma per_class_loop_fold (avg_confs ious : option (dict string Q))
    (rep : gmap string ClassReport) (gc gi : string → option Q)
    (cs : list string) (acc : dict string PerClass) :
  (∀ c, c ∈ cs → guarded_item avg_confs c = Ok (gc c)) →
  (∀ c, c ∈ cs → guarded_item ious c = Ok (gi c)) →
  per_class_loop avg_confs ious rep cs acc
  = Ok (foldl (λ acc c,
                 dict_set acc c
                   {| confidence := gc c;
                      iou := gi c;
                      precision := rep !! c ≫= r_precision;
                      recall := rep !! c ≫= r_recall;
                      f1_score := rep !! c ≫= r_f1_score;
                      support := rep !! c ≫= r_support |}) acc cs).
Proof.
  revert acc. induction cs as [|c cs IH]; intros acc Hc Hi; [done|].
  cbn [per_class_loop foldl].
  rewrite (Hc c), (Hi c) by (by left). cbn.
  apply IH; intros c' Hin; [apply Hc|apply Hi]; by right.
Qed.

(** When the arrays its type needs are there, [get_per_class_metrics]
    succeeds with exactly one entry per distinct class.  The entry of a
    class holds the class average of the confidences for detection and
    classification, of the IoUs for detection, and the four report fields
    of the class as far as the report has them. *)
Theorem per_class_metrics_shape (info : EvaluationInfo) (r : Results) :
  has_needed_values info r →
  ∃ pcm,
    get_per_class_metrics info r = Ok pcm
    ∧ NoDup (dict_keys pcm)
    ∧ ∀ c,
        (c ∉ classes r → dict_get pcm c = None)
        ∧ (c ∈ classes r →
           ∃ m, dict_get pcm c = Some m
                ∧ confidence m
                  = (if decide (type_ (config info)
                                ∈ EVALUATION_TYPES_WITH_CONFIDENCE)
                     then (λ vals, mean_or_zero (values_of c (ypred r) vals))
                            <$> confs r
                     else None)
                ∧ iou m
                  = (if decide (type_ (config info) ∈ EVALUATION_TYPES_WITH_IOU)
                     then (λ vals, mean_or_zero (values_of c (ypred r) vals))
                            <$> ious r
                     else None)
                ∧ precision m = report r !! c ≫= r_precision
                ∧ recall m = report r !! c ≫= r_recall
                ∧ f1_score m = report r !! c ≫= r_f1_score
                ∧ support m = report r !! c ≫= r_support).
Proof.
  intros [Hconf Hiou]. unfold get_per_class_metrics.
  set (gc := λ c : string,
         if decide (type_ (config info) ∈ EVALUATION_TYPES_WITH_CONFIDENCE)
         then (λ vals, mean_or_zero (values_of c (ypred r) vals)) <$> confs r
         else None).
  set (gi := λ c : string,
         if decide (type_ (config info) ∈ EVALUATION_TYPES_WITH_IOU)
         then (λ vals, mean_or_zero (values_of c (ypred r) vals)) <$> ious r
         else None).
  assert (∃ avg_confs,
            (if bool_decide (type_ (config info)
                             ∈ EVALUATION_TYPES_WITH_CONFIDENCE)
             then Some <$> compute_avg_confs r else Ok None) = Ok avg_confs
            ∧ ∀ c, c ∈ classes r → guarded_item avg_confs c = Ok (gc c))
    as (avg_confs & -> & Hgc).
  { unfold gc. case_bool_decide as Hty.
    - destruct (Hconf Hty) as [vals Hvals]. unfold compute_avg_confs.
      rewrite Hvals. eexists. split; [reflexivity|]. intros c Hin.
      rewrite decide_True by done. by apply guarded_item_averages.
    - eexists. split; [reflexivity|]. intros c _.
      by rewrite decide_False by done. }
  assert (∃ ious,
            (if bool_decide (type_ (config info) ∈ EVALUATION_TYPES_WITH_IOU)
             then Some <$> compute_avg_ious r else Ok None) = Ok ious
            ∧ ∀ c, c ∈ classes r → guarded_item ious c = Ok (gi c))
    as (ious & -> & Hgi).
  { unfold gi. case_bool_decide as Hty.
    - destruct (Hiou Hty) as [vals Hvals]. unfold compute_avg_ious.
      rewrite Hvals. eexists. split; [reflexivity|]. intros c Hin.
      rewrite decide_True by done. by apply guarded_item_averages.
    - eexists. split; [reflexivity|]. intros c _.
      by rewrite decide_False by done. }
  cbn. rewrite (per_class_loop_fold _ _ _ gc gi) by done.
  eexists. split; [reflexivity|]. split.
  - apply (fold_dict_set_NoDup
             (λ c, {| confidence := gc c; iou := gi c;
                      precision := report r !! c ≫= r_precision;
                      recall := report r !! c ≫= r_recall;
                      f1_score := report r !! c ≫= r_f1_score;
                      support := report r !! c ≫= r_support |})).
    apply NoDup_nil_2.
  - intros c.
    rewrite (dict_get_fold_set
               (λ c, {| confidence := gc c; iou := gi c;
                        precision := report r !! c ≫= r_precision;
                        recall := report r !! c ≫= r_recall;
                        f1_score := report r !! c ≫= r_f1_score;
                        support := report r !! c ≫= r_support |})).
    split; intros Hin.
    + by rewrite decide_False.
    + rewrite decide_True by done. eexists. split; [reflexivity|].
      by repeat split.
Qed.

Lemma per_class_metrics_shape_detection :
  has_needed_values Examples.det_info Examples.det
  ∧ ∃ pcm,
      get_per_class_metrics Examples.det_info Examples.det = Ok pcm
      ∧ NoDup (dict_keys pcm)
      ∧ dict_get pcm "bird" = None
      ∧ ∃ m, dict_get pcm "cat" = Some m ∧ is_Some (confidence m)
             ∧ is_Some (iou m).
Proof.
  assert (has_needed_values Examples.det_info Examples.det) as Hv
    by (split; intros _; by eexists).
  split; [exact Hv|].
  destruct (per_class_metrics_shape Examples.det_info Examples.det Hv)
    as (pcm & Hrun & Hnd & Hall).
  exists pcm. split; [exact Hrun|]. split; [exact Hnd|].
  destruct (Hall "bird") as [Hout _]. destruct (Hall "cat") as [_ Hin].
  split.
  - apply Hout. cbn. rewrite !not_elem_of_cons.
    repeat split; [discriminate..|apply not_elem_of_nil].
  - destruct Hin as (m & Hm & Hc & Hi & _); [by left|].
    exists m. split; [exact Hm|]. rewrite Hc, Hi. split; by eexists.
Defined.

(** Without the confidences a detection or classification needs, or the
    IoUs a detection needs, [get_per_class_metrics] raises [TypeError]. *)
Theorem per_class_metrics_needs_values (info : EvaluationInfo) (r : Results) :
  ¬ has_needed_values info r →
  get_per_class_metrics info r = Raise TypeError.
Proof.
  intros Hnot. unfold get_per_class_metrics, compute_avg_confs,
    compute_avg_ious.
  destruct (decide (type_ (config info) ∈ EVALUATION_TYPES_WITH_CONFIDENCE))
    as [Hc|Hc];
    rewrite ?(bool_decide_eq_true_2 _ Hc), ?(bool_decide_eq_false_2 _ Hc);
    [destruct (confs r) as [cs|] eqn:Hcs; [|done]|];
    (destruct (decide (type_ (config info) ∈ EVALUATION_TYPES_WITH_IOU))
       as [Hi|Hi];
     rewrite ?(bool_decide_eq_true_2 _ Hi), ?(bool_decide_eq_false_2 _ Hi);
     [destruct (ious r) as [us|] eqn:His; [|done]|]);
    exfalso; apply Hnot; split; intros ?; by eauto.
Qed.

Lemma per_class_metrics_needs_values_example :
  let r := Examples.res ["cat"] ["cat"] ["cat"] None in
  ¬ has_needed_values Examples.det_info r
  ∧ get_per_class_metrics Examples.det_info r = Raise TypeError.
Proof.
  intros r. assert (¬ has_needed_values Examples.det_info r) as Hnot.
  { intros [Hc _]. destruct Hc as [? Hc]; [by left|]. discriminate Hc. }
  split; [exact Hnot|].
  exact (per_class_metrics_needs_values Examples.det_info r Hnot).
Defined.

(** ** Mask targets *)

(** The field's own mask targets win when they are not empty, the
    dataset's default ones come next, and an empty mapping is never
    returned: the result is null exactly when both are empty or absent. *)
Theorem get_mask_targets_spec (d : Dataset) (gt : string) :
  (∀ m, mask_targets d !! gt = Some m → m ≠ [] →
        get_mask_targets d gt = Some m)
  ∧ (∀ m, get_mask_targets d gt = Some m →
          m ≠ [] ∧ (mask_targets d !! gt = Some m ∨ m = default_mask_targets d))
  ∧ (get_mask_targets d gt = None
     ↔ default [] (mask_targets d !! gt) = [] ∧ default_mask_targets d = []).
Proof.
  unfold get_mask_targets.
  destruct (mask_targets d !! gt) as [[|kv m']|];
    destruct (default_mask_targets d) as [|kv' dm]; cbn.
  all: split; [intros m Hm Hne; try by simplify_eq|].
  all: split; [intros m Hm; simplify_eq; try (split; [done|]; auto)|].
  all: try (split; [intros Hm; by simplify_eq|intros [Hm Hd]; by simplify_eq]).
Qed.

(** ** The rankings by frequency *)

Lemma Counter_fold_get (xs : list string) (d : dict string nat) (c : string) :
  let d' := foldl (λ d x, dict_set d x (S (default 0 (dict_get d x)))) d xs in
  default 0 (dict_get d' c) = default 0 (dict_get d c) + occurrences c xs
  ∧ (is_Some (dict_get d' c) ↔ is_Some (dict_get d c) ∨ c ∈ xs).
Proof.
  revert d. induction xs as [|x xs IH]; intros d; cbn [foldl]; cbv zeta.
  - unfold occurrences. simpl. split; [lia|].
    split; [by left|]. intros [?|Hin]; [done|]. by apply elem_of_nil in Hin.
  - cbv zeta in IH.
    destruct (IH (dict_set d x (S (default 0 (dict_get d x))))) as [IHn IHs].
    rewrite IHn, IHs, dict_get_set. unfold occurrences.
    rewrite filter_cons. destruct (decide (x = c)) as [->|Hne].
    + split; [simpl; lia|]. split; [intros _; right; by left|].
      intros _. left. by eexists.
    + split; [done|]. rewrite elem_of_cons. split; [tauto|].
      intros [?|[?|?]]; [tauto|congruence|tauto].
Qed.

Lemma dict_get_pop {V} (d : dict string V) (k c : string) :
  c ≠ k → dict_get (dict_pop d k) c = dict_get d c.
Proof.
  intros Hne. induction d as [|[k0 v0] d IH]; simpl; [done|].
  destruct (decide (k0 = k)) as [->|Hk]; simpl.
  - by rewrite decide_False.
  - by rewrite IH.
Qed.

Lemma dict_pop_NoDup {V} (d : dict string V) (k : string) :
  NoDup (dict_keys d) → NoDup (dict_keys (dict_pop d k)).
Proof.
  unfold dict_keys. induction d as [|[k0 v0] d IH]; csimpl; [done|].
  intros [Hk0 Hnd]%NoDup_cons. destruct (decide (k0 = k)); csimpl; [done|].
  apply NoDup_cons. split; [|by apply IH].
  intros Hin. apply Hk0. by apply (dict_pop_keys_subseteq d k).
Qed.

Lemma dict_keys_get {V} (d : dict string V) (c : string) :
  c ∈ dict_keys d ↔ is_Some (dict_get d c).
Proof.
  destruct (dict_get d c) eqn:Hget.
  - split; [by eexists|]. intros _.
    destruct (decide (c ∈ dict_keys d)) as [?|Hn]; [done|].
    apply dict_get_None in Hn. congruence.
  - split; [|by intros [? ?]]. intros Hin.
    by apply dict_get_None in Hget.
Qed.

(** The frequency of a label other than the sentinel is the number of its
    occurrences in the ground truth. *)
Lemma freq_get_occurrences (r : Results) (c : string) :
  c ≠ missing r → freq_get r c = occurrences c (ytrue r).
Proof.
  intros Hne. unfold freq_get, freq.
  destruct (Counter_fold_get (ytrue r) [] c) as [Hn _]. cbv zeta in Hn.
  destruct (dict_mem _ _); [rewrite dict_get_pop by done|];
    unfold Counter; by rewrite Hn.
Qed.

Lemma freq_keys (r : Results) (c : string) :
  c ∈ dict_keys (freq r) ↔ c ∈ ytrue r ∧ c ≠ missing r.
Proof.
  split.
  - intros Hin. split; [by apply freq_keys_in_ytrue|].
    intros ->. by apply (freq_without_missing r).
  - intros [Hin Hne]. apply dict_keys_get. unfold freq.
    destruct (Counter_fold_get (ytrue r) [] c) as [_ Hs]. cbv zeta in Hs.
    destruct (dict_mem _ _); [rewrite dict_get_pop by done|];
      unfold Counter; apply Hs; by right.
Qed.

Lemma freq_keys_NoDup (r : Results) : NoDup (dict_keys (freq r)).
Proof.
  unfold freq. destruct (dict_mem _ _);
    [apply dict_pop_NoDup|]; apply Counter_NoDup.
Qed.

Lemma Sorted_weaken_elem {A} (R R' : relation A) (l : list A) :
  (∀ a b, a ∈ l → b ∈ l → R a b → R' a b) → Sorted R l → Sorted R' l.
Proof.
  intros Himp Hs. induction Hs as [|x l Hs IH Hhd]; constructor.
  - apply IH. intros a b Ha Hb. apply Himp; by right.
  - destruct Hhd as [|y l' Hxy]; constructor.
    apply Himp; [by left|right; by left|done].
Qed.

(** The most-common and least-common orderings rank exactly the distinct
    labels of the ground truth other than the missing sentinel, each once,
    by their number of occurrences: descending for mc, ascending for lc. *)
Theorem rankings_by_occurrences (r : Results) :
  (∀ c, c ∈ mc_classes r ↔ c ∈ ytrue r ∧ c ≠ missing r)
  ∧ NoDup (mc_classes r)
  ∧ mc_classes r ≡ₚ lc_classes r
  ∧ Sorted (λ a b, occurrences b (ytrue r) ≤ occurrences a (ytrue r))
           (mc_classes r)
  ∧ Sorted (λ a b, occurrences a (ytrue r) ≤ occurrences b (ytrue r))
           (lc_classes r).
Proof.
  split; [|split; [|split; [|split]]].
  - intros c. rewrite mc_classes_Permutation. apply freq_keys.
  - rewrite mc_classes_Permutation. apply freq_keys_NoDup.
  - by rewrite mc_classes_Permutation, lc_classes_Permutation.
  - eapply Sorted_weaken_elem; [|apply mc_classes_Sorted].
    intros a b [Ha _]%mc_classes_ranked [Hb _]%mc_classes_ranked.
    rewrite !freq_get_occurrences by done. done.
  - eapply Sorted_weaken_elem; [|apply lc_classes_Sorted].
    intros a b [Ha _]%lc_classes_ranked [Hb _]%lc_classes_ranked.
    rewrite !freq_get_occurrences by done. done.
Qed.

(** The az ordering is the class list sorted ascending, and the za
    ordering is the az ordering read backwards. *)
Theorem alphabetical_orderings (r : Results) :
  az_classes r ≡ₚ classes r
  ∧ Sorted String.le (az_classes r)
  ∧ za_classes r = reverse (az_classes r).
Proof.
  split; [apply az_classes_Permutation|].
  split; [apply az_classes_Sorted|apply za_classes_reverse].
Qed.

(** ** What a reconciliation publishes and keeps *)

Lemma discover_spec (d : Dataset) (keys : list string) (acc : list Pending) :
  discover d keys acc
  = acc ++ (discovered <$> filter (λ k, has_evaluation_results d k = false) keys).
Proof.
  unfold discover. revert acc.
  induction keys as [|k keys IH]; intros acc; cbn [foldl].
  - by rewrite filter_nil, app_nil_r.
  - rewrite IH, filter_cons.
    destruct (has_evaluation_results d k) eqn:Hk; cbn [negb].
    + by rewrite decide_False.
    + rewrite decide_True by done. by rewrite <- app_assoc.
Qed.

Lemma kept_spec (eval_keys : list string) (l : list Pending) (p : Pending) :
  p ∈ kept eval_keys l ↔ p ∈ l ∧ key_in (eval_key p) eval_keys = false.
Proof. unfold kept. by rewrite list_elem_of_filter, (comm and). Qed.

Section Published.
Context {colorscale : Type}.
Implicit Types (w : World colorscale) (req : Request).

(** [load_pending_evaluations] publishes the stored entries whose key is
    not among the dataset's evaluations, followed by one fresh entry per
    dataset key without results, in the dataset's order.  A dataset key
    with results is in no published entry, a dataset key without results
    is published. *)
Theorem pending_published req w :
  let keys := list_evaluations (dataset req) in
  let out :=
    kept keys (stored_pending req w)
    ++ (discovered
          <$> filter (λ k, has_evaluation_results (dataset req) k = false) keys)
  in
  (∃ w', load_pending_evaluations req w = (Ok (), w')
         ∧ last (trace w') = Some (SetData "pending_evaluations" (DPending out)))
  ∧ ∀ k, k ∈ keys →
         (has_evaluation_results (dataset req) k = true →
          ∀ p, p ∈ out → eval_key p ≠ Some k)
         ∧ (has_evaluation_results (dataset req) k = false →
            discovered k ∈ out).
Proof.
  intros keys out.
  assert (reconciled req w = out) as Hout
    by (unfold reconciled; apply discover_spec).
  split.
  - rewrite load_pending_evaluations_run, Hout.
    destruct (existsb _ _); eexists; (split; [reflexivity|]);
      cbn [trace]; apply last_snoc.
  - intros k Hk. split.
    + intros Hres p Hp Hkey. unfold out in Hp.
      apply elem_of_app in Hp as [Hp|Hp].
      * apply kept_spec in Hp as [_ Hp]. rewrite Hkey in Hp. cbn in Hp.
        by apply bool_decide_eq_false in Hp.
      * apply list_elem_of_fmap in Hp as (k' & -> & Hk').
        apply list_elem_of_filter in Hk' as [Hk' _].
        cbn in Hkey. injection Hkey as ->. congruence.
    + intros Hres. unfold out. apply elem_of_app. right.
      apply list_elem_of_fmap. exists k. split; [done|].
      by apply list_elem_of_filter.
Qed.

(** After a reconciliation the list stored for the dataset holds no entry
    whose key is among the dataset's evaluations. *)
Theorem pending_store_purged req w :
  ∀ p, p ∈ stored_pending req (load_pending_evaluations req w).2 →
       materialized req p = false.
Proof.
  intros p. rewrite load_pending_evaluations_run.
  destruct (existsb (materialized req) (stored_pending req w)) eqn:Hdrop;
    cbn [snd].
  - unfold stored_pending at 1. unfold with_pending. simpl.
    rewrite lookup_insert_eq. simpl. by intros [_ Hp]%kept_spec.
  - change (stored_pending req _) with (stored_pending req w). intros Hp.
    destruct (materialized req p) eqn:Hm; [|done].
    assert (existsb (materialized req) (stored_pending req w) = true)
      as Hex by (apply existsb_exists; exists p; by rewrite <- list_elem_of_In).
    congruence.
Qed.

(** A reconciliation leaves the statuses, the notes, the cached bundles,
    the panel state and the pending lists of every other dataset alone. *)
Theorem load_pending_frame req w :
  let w' := (load_pending_evaluations req w).2 in
  statuses (store w') = statuses (store w)
  ∧ notes (store w') = notes (store w)
  ∧ cache (store w') = cache (store w)
  ∧ st_view w' = st_view w
  ∧ st_missing w' = st_missing w
  ∧ ∀ ds, ds ≠ dataset_id (dataset req) →
          default ∅ (pending_evaluations (store w')) !! ds
          = default ∅ (pending_evaluations (store w)) !! ds.
Proof.
  cbv zeta. rewrite load_pending_evaluations_run.
  destruct (existsb _ _); cbn [snd store st_view st_missing];
    repeat split; try done.
  intros ds Hds. unfold with_pending. simpl. by rewrite lookup_insert_ne.
Qed.
End Published.

(** A store holding a submitted run that the dataset does not list yet
    and one for a key it lists: after the reconciliation only the first
    is left. *)
Lemma pending_store_purged_example :
  let submitted_run := {| eval_key := Some "eval_new"; doc_id := Some "42" |} in
  let listed := {| eval_key := Some "eval_det"; doc_id := None |} in
  let s : Store () :=
    {| statuses := None; notes := None;
       pending_evaluations := Some {[ "ds1" := [submitted_run; listed] ]};
       cache := ∅ |} in
  let req := Examples.plain_request in
  let w := Examples.world "eval_det" "id_det" s in
  stored_pending req (load_pending_evaluations req w).2 = [submitted_run]
  ∧ materialized req submitted_run = false.
Proof.
  intros submitted_run listed s req w.
  assert (stored_pending req (load_pending_evaluations req w).2
          = [submitted_run]) as Hstored by (vm_compute; reflexivity).
  split; [exact Hstored|].
  apply (pending_store_purged req w submitted_run).
  rewrite Hstored. apply list_elem_of_singleton. reflexivity.
Defined.

(** ** Recording a submission *)

Section Submission.
Context {colorscale : Type}.
Implicit Types (w : World colorscale) (req : Request) (result : Submission).

(** The world after the submission was appended and persisted. *)
Lemma on_evaluate_model_success_run result req w :
  on_evaluate_model_success result req w
  = load_pending_evaluations req
      {| store := with_pending req w
                    (stored_pending req w ++ [submitted result]);
         st_view := st_view w; st_missing := st_missing w;
         trace := trace w ++ [StoreSet (Some "pending_evaluations") None] |}.
Proof. reflexivity. Qed.

Lemma kept_snoc (eval_keys : list string) (l : list Pending) (p : Pending) :
  kept eval_keys (l ++ [p])
  = kept eval_keys l ++ (if key_in (eval_key p) eval_keys then [] else [p]).
Proof.
  unfold kept. rewrite filter_app, filter_cons, filter_nil.
  by destruct (key_in (eval_key p) eval_keys).
Qed.

(** A submission is appended to the dataset's stored list and written to
    the store, then the list is reconciled at once: the new entry stays
    stored and is published after the earlier ones, unless its key is
    already among the dataset's evaluations, in which case it is dropped
    again in the same request. *)
Theorem submission_recorded result req w :
  let keys := list_evaluations (dataset req) in
  ∃ w' evs,
    on_evaluate_model_success result req w = (Ok (), w')
    ∧ stored_pending req w'
      = kept keys (stored_pending req w)
        ++ (if materialized req (submitted result) then []
            else [submitted result])
    ∧ emitted w w' (StoreSet (Some "pending_evaluations") None :: evs)
    ∧ last evs
      = Some (SetData "pending_evaluations"
                (DPending
                   (stored_pending req w'
                    ++ (discovered
                          <$> filter (λ k, has_evaluation_results
                                             (dataset req) k = false) keys)))).
Proof.
  intros keys. rewrite on_evaluate_model_success_run.
  set (w0 := {| store := with_pending req w
                           (stored_pending req w ++ [submitted result]);
                st_view := st_view w; st_missing := st_missing w;
                trace := trace w
                           ++ [StoreSet (Some "pending_evaluations") None] |}).
  assert (stored_pending req w0 = stored_pending req w ++ [submitted result])
    as Hstored.
  { unfold stored_pending at 1. unfold w0, with_pending. simpl.
    by rewrite lookup_insert_eq. }
  assert (reconciled req w0
          = kept keys (stored_pending req w ++ [submitted result])
            ++ (discovered
                  <$> filter (λ k, has_evaluation_results (dataset req) k
                                   = false) keys)) as Hrec.
  { unfold reconciled. by rewrite discover_spec, Hstored. }
  rewrite load_pending_evaluations_run, Hrec, Hstored.
  assert (kept keys (stored_pending req w ++ [submitted result])
          = kept keys (stored_pending req w)
            ++ (if materialized req (submitted result) then []
                else [submitted result])) as Hsnoc by apply kept_snoc.
  rewrite <- Hsnoc. clear Hsnoc.
  destruct (existsb (materialized req)
              (stored_pending req w ++ [submitted result])) eqn:Hdrop.
  - eexists _, _. split; [reflexivity|].
    match goal with
    | |- stored_pending req ?W = _ ∧ _ =>
        assert (stored_pending req W
                = kept keys (stored_pending req w ++ [submitted result]))
          as Hfin
    end.
    { unfold stored_pending at 1. unfold with_pending. simpl.
      by rewrite lookup_insert_eq. }
    split; [exact Hfin|]. rewrite Hfin. unfold emitted. cbn [trace w0].
    split; [rewrite <- !app_assoc; reflexivity|]. reflexivity.
  - eexists _, _. split; [reflexivity|].
    assert (kept keys (stored_pending req w ++ [submitted result])
            = stored_pending req w ++ [submitted result]) as Hall
      by (by apply kept_all).
    match goal with
    | |- stored_pending req ?W = _ ∧ _ =>
        assert (stored_pending req W
                = kept keys (stored_pending req w ++ [submitted result]))
          as Hfin
    end.
    { change (stored_pending req _) with (stored_pending req w0) at 1.
      by rewrite Hstored, Hall. }
    split; [exact Hfin|]. rewrite Hfin. unfold emitted. cbn [trace w0].
    split; [rewrite <- !app_assoc; reflexivity|]. reflexivity.
Qed.
End Submission.

(** ** The evaluations listed on load *)

Lemma on_load_evaluations_fold (d : Dataset) (keys : list string)
    (acc : list (string * option string)) :
  foldl (λ evaluations key,
           if has_evaluation_results d key
           then evaluations ++ [(key, get_evaluation_id d key)]
           else evaluations) acc keys
  = acc ++ ((λ k, (k, get_evaluation_id d k))
              <$> filter (λ k, has_evaluation_results d k = true) keys).
Proof.
  revert acc. induction keys as [|k keys IH]; intros acc; cbn [foldl].
  - by rewrite filter_nil, app_nil_r.
  - rewrite IH, filter_cons. destruct (has_evaluation_results d k).
    + rewrite decide_True by done. by rewrite <- app_assoc.
    + by rewrite decide_False.
Qed.

(** [on_load] lists exactly the dataset's evaluations that have results,
    in the dataset's order and each with an id; together with the keys
    that [load_pending_evaluations] discovers they make up the dataset's
    evaluation list. *)
Theorem evaluations_partition (d : Dataset) :
  (on_load_evaluations d).*1
  = filter (λ k, has_evaluation_results d k = true) (list_evaluations d)
  ∧ (∀ k id, (k, id) ∈ on_load_evaluations d →
             has_evaluation_results d k = true
             ∧ id = get_evaluation_id d k ∧ is_Some id)
  ∧ (on_load_evaluations d).*1
    ++ filter (λ k, has_evaluation_results d k = false) (list_evaluations d)
    ≡ₚ list_evaluations d.
Proof.
  unfold on_load_evaluations. rewrite on_load_evaluations_fold, app_nil_l.
  assert (((λ k, (k, get_evaluation_id d k))
             <$> filter (λ k, has_evaluation_results d k = true)
                        (list_evaluations d)).*1
          = filter (λ k, has_evaluation_results d k = true)
                   (list_evaluations d)) as Hkeys.
  { rewrite <- list_fmap_compose. apply list_fmap_id. }
  split; [exact Hkeys|]. split.
  - intros k id (k' & [= -> ->] & Hk')%list_elem_of_fmap.
    apply list_elem_of_filter in Hk' as [Hres _].
    split; [done|]. split; [done|].
    unfold has_evaluation_results in Hres. unfold get_evaluation_id.
    destruct (doc_evaluations d !! k'); [by eexists|done].
  - rewrite Hkeys.
    rewrite <- (filter_app_complement
                  (λ k, has_evaluation_results d k = true)
                  (list_evaluations d)) at 3.
    apply Permutation_app; [done|].
    apply Permutation_refl'. apply list_filter_iff. intros k.
    by destruct (has_evaluation_results d k).
Qed.

(** ** What status and note updates touch *)

Section StatusAndNote.
Context {colorscale : Type}.
Implicit Types (w : World colorscale) (req : Request).

(** Whatever the status is, and whether or not the label lookup raises
    afterwards, [set_status] has stored the status under the id of the
    evaluation shown in the panel; the statuses of the other evaluations,
    the notes, the pending lists and the cached bundles are as before. *)
Theorem set_status_frame req w :
  let w' := (set_status req w).2 in
  statuses (store w') = Some (recorded req w)
  ∧ recorded req w !! v_id (st_view w) = Some (p_status (params req))
  ∧ (∀ id, id ≠ v_id (st_view w) →
           recorded req w !! id = default ∅ (statuses (store w)) !! id)
  ∧ notes (store w') = notes (store w)
  ∧ pending_evaluations (store w') = pending_evaluations (store w)
  ∧ cache (store w') = cache (store w).
Proof.
  cbv zeta. unfold set_status, recorded.
  rewrite can_edit_status_granted. cbn [negb].
  unfold store_set_statuses, set_data, notify.
  unfold mbind, M_bind, get_view, get_store, put_store, emit, lift.
  cbn [store st_view st_missing trace fst snd].
  destruct (option_bind _ _ _ _);
    cbn [store st_view st_missing trace fst snd statuses notes
           pending_evaluations cache];
    (split; [reflexivity|]); (split; [apply lookup_insert_eq|]);
    (split; [intros id Hid; by rewrite lookup_insert_ne|]);
    repeat split; reflexivity.
Qed.

(** [set_note] never raises: any note, an absent one included, is stored
    under the id of the evaluation shown in the panel, published and
    acknowledged, and the statuses, the pending lists and the cached
    bundles are as before. *)
Theorem set_note_total (note : option string) req w :
  let stored := <[v_id (st_view w) := note]> (default ∅ (notes (store w))) in
  ∃ w',
    set_note note req w = (Ok (), w')
    ∧ notes (store w') = Some stored
    ∧ stored !! v_id (st_view w) = Some note
    ∧ statuses (store w') = statuses (store w)
    ∧ pending_evaluations (store w') = pending_evaluations (store w)
    ∧ cache (store w') = cache (store w)
    ∧ emitted w w'
        [StoreSet (Some "notes") None;
         SetData "notes" (DNotes stored);
         Notify "Note updated successfully!" "success"].
Proof.
  cbv zeta. eexists. unfold set_note.
  assert (can_edit_note = true) as -> by reflexivity. cbn [negb].
  unfold mbind, M_bind, get_view, get_store, store_set_notes, set_data,
    notify, put_store, emit.
  cbn [store st_view st_missing trace mbind M_bind].
  split; [reflexivity|]. cbn [store notes statuses pending_evaluations cache].
  split; [reflexivity|]. split; [apply lookup_insert_eq|].
  do 3 (split; [reflexivity|]). unfold emitted. cbn [trace].
  by rewrite <- !app_assoc.
Qed.

(** A labelled status and a note can be set in either order: both runs
    complete and leave the same store. *)
Theorem status_and_note_commute (note : option string) req w
    (s label : string) :
  p_status (params req) = Some s →
  dict_get STATUS_LABELS s = Some label →
  ∃ w1 w2 w1' w2',
    set_status req w = (Ok (), w1) ∧ set_note note req w1 = (Ok (), w2)
    ∧ set_note note req w = (Ok (), w1') ∧ set_status req w1' = (Ok (), w2')
    ∧ store w2 = store w2'.
Proof.
  intros Hs Hl.
  assert (∀ w0, ∃ w0',
            set_status req w0 = (Ok (), w0')
            ∧ st_view w0' = st_view w0
            ∧ store w0'
              = {| statuses :=
                     Some (<[v_id (st_view w0) := Some s]>
                             (default ∅ (statuses (store w0))));
                   notes := notes (store w0);
                   pending_evaluations := pending_evaluations (store w0);
                   cache := cache (store w0) |}) as Hstatus.
  { intros w0. eexists. unfold set_status.
    rewrite can_edit_status_granted. cbn [negb].
    unfold store_set_statuses, set_data, notify.
    unfold mbind, M_bind, get_view, get_store, put_store, emit, lift.
    cbn [store st_view st_missing trace fst snd].
    rewrite Hs. change (option_bind _ _ (dict_get STATUS_LABELS) (Some s))
      with (dict_get STATUS_LABELS s). rewrite Hl.
    repeat split; reflexivity. }
  assert (∀ w0, ∃ w0',
            set_note note req w0 = (Ok (), w0')
            ∧ st_view w0' = st_view w0
            ∧ store w0'
              = {| statuses := statuses (store w0);
                   notes :=
                     Some (<[v_id (st_view w0) := note]>
                             (default ∅ (notes (store w0))));
                   pending_evaluations := pending_evaluations (store w0);
                   cache := cache (store w0) |}) as Hnote.
  { intros w0. eexists. unfold set_note.
    assert (can_edit_note = true) as -> by reflexivity. cbn [negb].
    unfold store_set_notes, set_data, notify.
    unfold mbind, M_bind, get_view, get_store, put_store, emit.
    cbn [store st_view st_missing trace fst snd].
    repeat split; reflexivity. }
  destruct (Hstatus w) as (w1 & Hr1 & Hv1 & Hs1).
  destruct (Hnote w1) as (w2 & Hr2 & Hv2 & Hs2).
  destruct (Hnote w) as (w1' & Hr1' & Hv1' & Hs1').
  destruct (Hstatus w1') as (w2' & Hr2' & Hv2' & Hs2').
  exists w1, w2, w1', w2'. do 4 (split; [done|]).
  rewrite Hs2, Hs2', Hv1, Hv1', Hs1, Hs1'. reflexivity.
Qed.
End StatusAndNote.

Lemma set_status_labelled_reviewed :
  let req := Examples.status_request (Some "reviewed") in
  let w := Examples.world "eval_det" "id_det" Examples.empty_store in
  p_status (params req) = Some "reviewed"
  ∧ dict_get STATUS_LABELS "reviewed" = Some "reviewed"
  ∧ ∃ w',
      set_status req w = (Ok (), w')
      ∧ statuses (store w') = Some (recorded req w)
      ∧ emitted w w'
          [StoreSet (Some "statuses") None;
           SetData "statuses" (DStatuses (recorded req w));
           Notify "Status updated to reviewed successfully!" "success"].
Proof.
  intros req w. do 2 (split; [reflexivity|]).
  exact (set_status_labelled req w "reviewed" "reviewed" eq_refl eq_refl).
Defined.

Lemma status_and_note_commute_example :
  let req := Examples.status_request (Some "in_review") in
  let w := Examples.world "eval_det" "id_det" Examples.empty_store in
  p_status (params req) = Some "in_review"
  ∧ dict_get STATUS_LABELS "in_review" = Some "in review"
  ∧ ∃ w1 w2 w1' w2',
      set_status req w = (Ok (), w1)
      ∧ set_note (Some "check the labels") req w1 = (Ok (), w2)
      ∧ set_note (Some "check the labels") req w = (Ok (), w1')
      ∧ set_status req w1' = (Ok (), w2')
      ∧ store w2 = store w2'.
Proof.
  intros req w. do 2 (split; [reflexivity|]).
  exact (status_and_note_commute (Some "check the labels") req w
           "in_review" "in review" eq_refl eq_refl).
Defined.

(** ** The bundle cache *)

Section Cache.
Context {colorscale : Type} (_to_log_colorscale : string → nat → colorscale).
Context (store_set_raises
           : World colorscale → option string → EvaluationData colorscale
             → option exn).
Implicit Types (w : World colorscale) (req : Request).

Lemma load_evaluation_cached req w (d : EvaluationData colorscale) :
  cache (store w) !! computed_eval_id req w = Some d →
  load_evaluation _to_log_colorscale true store_set_raises req w
  = (Ok (),
     {| store := store w; st_view := st_view w; st_missing := st_missing w;
        trace := trace w
                   ++ [SetData ("evaluation_" +:+ fmt (computed_eval_key req w))
                               (DEvaluation d)] |}).
Proof.
  intros Hhit. unfold computed_eval_id in Hhit. unfold load_evaluation.
  unfold mbind, M_bind, get_view, get_store, set_data, emit.
  cbn [store st_view st_missing trace]. by rewrite Hhit.
Qed.

(** With caching enabled, a bundle cached under the evaluation id is
    published as it is: the dataset is not consulted, so the evaluation
    need not exist or be of a supported type any more, and the store and
    the panel's missing-label state stay as they are. *)
Theorem load_evaluation_cache_hit req w (d : EvaluationData colorscale) :
  cache (store w) !! computed_eval_id req w = Some d →
  ∃ w' evs,
    load_evaluation _to_log_colorscale true store_set_raises req w
    = (Ok (), w')
    ∧ store w' = store w
    ∧ st_missing w' = st_missing w
    ∧ emitted w w' evs
    ∧ evs = [SetData ("evaluation_" +:+ fmt (computed_eval_key req w))
                     (DEvaluation d)]
    ∧ Forall (λ e, is_dataset_call e = false ∧ is_store_write e = false) evs.
Proof.
  intros Hhit. rewrite (load_evaluation_cached req w d Hhit).
  eexists _, _. do 3 (split; [reflexivity|]).
  split; [reflexivity|]. split; [reflexivity|]. by repeat constructor.
Qed.

(** A computing run completes once the dataset yields the results and
    the per-class metrics and the counts can be computed, whether or not
    the store accepts the bundle. *)
Lemma load_evaluation_completes req w (info : EvaluationInfo) (r : Results)
    (pcm : dict string PerClass) (counts : counts3) :
  cache (store w) !! computed_eval_id req w = None →
  get_evaluation_info (dataset req) (computed_eval_key req w) = Ok info →
  type_ (config info) ∈ SUPPORTED_EVALUATION_TYPES →
  load_evaluation_results (dataset req) (computed_eval_key req w) = Ok r →
  get_per_class_metrics info r = Ok pcm →
  get_tp_fp_fn info r = Ok counts →
  ∃ w1,
    load_evaluation _to_log_colorscale true store_set_raises req w
    = (Ok (), w1).
Proof.
  intros Hmiss Hinfo Hty Hres Hpcm Hcounts.
  unfold computed_eval_id, computed_eval_key in *.
  unfold load_evaluation.
  unfold try_except, set_missing, set_data.
  unfold mbind, M_bind, get_view, get_store, put_store, emit, lift.
  cbn [store st_view st_missing trace fst snd].
  rewrite Hmiss, Hinfo. cbn [store st_view st_missing trace fst snd].
  rewrite (bool_decide_eq_true_2 _ Hty). cbn [negb].
  rewrite Hres, Hpcm, Hcounts. destruct counts as [[tp fp] fn].
  eexists. reflexivity.
Qed.

(** What a run that had to compute the bundle leaves behind: the published
    bundle is in the cache when the store accepted the write, and the
    store is as before when it refused it. *)
Lemma load_evaluation_computed req w w1 (info : EvaluationInfo) :
  cache (store w) !! computed_eval_id req w = None →
  get_evaluation_info (dataset req) (computed_eval_key req w) = Ok info →
  type_ (config info) ∈ SUPPORTED_EVALUATION_TYPES →
  load_evaluation _to_log_colorscale true store_set_raises req w
  = (Ok (), w1) →
  ∃ (r : Results) (d : EvaluationData colorscale) (at_write : World colorscale),
    load_evaluation_results (dataset req) (computed_eval_key req w) = Ok r
    ∧ st_view w1 = st_view w
    ∧ st_missing w1 = Some (missing r)
    ∧ last (trace w1)
      = Some (SetData ("evaluation_" +:+ fmt (computed_eval_key req w))
                      (DEvaluation d))
    ∧ (store_set_raises at_write (computed_eval_id req w) d = None →
       cache (store w1) = <[computed_eval_id req w := d]> (cache (store w))
       ∧ statuses (store w1) = statuses (store w)
       ∧ notes (store w1) = notes (store w)
       ∧ pending_evaluations (store w1) = pending_evaluations (store w)
       ∧ emitted w w1
           [GetEvaluationInfo (computed_eval_key req w);
            LoadEvaluationResults (computed_eval_key req w);
            SetState "missing";
            StoreSet (computed_eval_id req w) (Some CACHE_TTL);
            SetData ("evaluation_" +:+ fmt (computed_eval_key req w))
                    (DEvaluation d)])
    ∧ (is_Some (store_set_raises at_write (computed_eval_id req w) d) →
       store w1 = store w
       ∧ emitted w w1
           [GetEvaluationInfo (computed_eval_key req w);
            LoadEvaluationResults (computed_eval_key req w);
            SetState "missing";
            SetData ("evaluation_" +:+ fmt (computed_eval_key req w))
                    (DEvaluation d)]).
Proof.
  intros Hmiss Hinfo Hty. unfold computed_eval_id, computed_eval_key in *.
  unfold load_evaluation, emitted.
  unfold try_except, store_set_bundle, set_missing, set_data.
  unfold mbind, M_bind, get_view, get_store, put_store, emit, lift.
  cbn [store st_view st_missing trace fst snd].
  rewrite Hmiss, Hinfo. cbn [store st_view st_missing trace fst snd].
  rewrite (bool_decide_eq_true_2 _ Hty). cbn [negb].
  destruct (load_evaluation_results _ _) as [r|e]; [|discriminate].
  destruct (get_per_class_metrics info r) as [pcm|e]; [|discriminate].
  destruct (get_tp_fp_fn info r) as [[[tp fp] fn]|e]; [|discriminate].
  cbn [store st_view st_missing trace fst snd cache].
  match goal with
  | |- context [store_set_raises ?wp ?id ?d] =>
      destruct (store_set_raises wp id d) as [e|] eqn:Hwrite;
      cbn [store st_view st_missing trace fst snd cache];
      intros [= <-]; exists r, d, wp
  end.
  - split; [reflexivity|]. cbn [store st_view st_missing trace cache].
    do 2 (split; [reflexivity|]). split; [apply last_snoc|].
    rewrite Hwrite. split; [discriminate|]. intros _.
    split; [by destruct (store w)|]. by rewrite <- !app_assoc.
  - split; [reflexivity|]. cbn [store st_view st_missing trace cache].
    do 2 (split; [reflexivity|]). split; [apply last_snoc|].
    rewrite Hwrite. split.
    + intros _. cbn [statuses notes pending_evaluations cache].
      do 4 (split; [reflexivity|]). by rewrite <- !app_assoc.
    + intros [? [=]].
Qed.

End Cache.

Lemma load_evaluation_cache_hit_example :
  let d : EvaluationData () :=
    {| ed_metrics := []; ed_info := "{}";
       ed_confusion_matrices := get_confusion_matrices (λ _ _, ()) Examples.det;
       ed_per_class_metrics := []; ed_mask_targets := None |} in
  let s : Store () :=
    {| statuses := None; notes := None; pending_evaluations := None;
       cache := {[ Some "gone" := d ]} |} in
  let req := Examples.plain_request in
  let w := Examples.world "dropped_eval" "gone" s in
  cache (store w) !! computed_eval_id req w = Some d
  ∧ get_evaluation_info (dataset req) (computed_eval_key req w)
    = Raise ValueError
  ∧ ∃ w' evs,
      load_evaluation (λ _ _, ()) true (λ _ _ _, None) req w = (Ok (), w')
      ∧ store w' = store w
      ∧ st_missing w' = st_missing w
      ∧ emitted w w' evs
      ∧ evs = [SetData "evaluation_dropped_eval" (DEvaluation d)]
      ∧ Forall (λ e, is_dataset_call e = false ∧ is_store_write e = false) evs.
Proof.
  intros d s req w.
  assert (cache (store w) !! computed_eval_id req w = Some d) as Hhit
    by apply lookup_singleton_eq.
  split; [exact Hhit|]. split; [reflexivity|].
  exact (load_evaluation_cache_hit (λ _ _, ()) (λ _ _ _, None) req w d Hhit).
Defined.


Section NoCaching.
Context {colorscale : Type} (_to_log_colorscale : string → nat → colorscale).
Context (store_set_raises
           : World colorscale → option string → EvaluationData colorscale
             → option exn).
Implicit Types (w : World colorscale) (req : Request).

(** With caching disabled [load_evaluation] never writes to the store,
    whatever the evaluation is and whether the load completes or raises. *)
Theorem load_evaluation_no_caching req w :
  let w' :=
    (load_evaluation _to_log_colorscale false store_set_raises req w).2 in
  store w' = store w
  ∧ ∃ evs, emitted w w' evs ∧ Forall (λ e, is_store_write e = false) evs.
Proof.
  cbv zeta. unfold load_evaluation, emitted.
  unfold set_missing, set_data.
  unfold mbind, M_bind, get_view, get_store, put_store, emit, lift.
  cbn [store st_view st_missing trace fst snd mret M_ret].
  destruct (get_evaluation_info _ _) as [info|e];
    cbn [store st_view st_missing trace fst snd].
  2: { split; [reflexivity|]. eexists. split; [reflexivity|].
       by repeat constructor. }
  destruct (negb _); cbn [store st_view st_missing trace fst snd].
  { split; [reflexivity|]. eexists.
    split; [by rewrite <- !app_assoc|]. by repeat constructor. }
  destruct (load_evaluation_results _ _) as [r|e];
    cbn [store st_view st_missing trace fst snd].
  2: { split; [reflexivity|]. eexists.
       split; [by rewrite <- !app_assoc|]. by repeat constructor. }
  destruct (get_per_class_metrics info r) as [pcm|e];
    cbn [store st_view st_missing trace fst snd].
  2: { split; [reflexivity|]. eexists.
       split; [by rewrite <- !app_assoc|]. by repeat constructor. }
  destruct (get_tp_fp_fn info r) as [[[tp fp] fn]|e];
    cbn [store st_view st_missing trace fst snd].
  2: { split; [reflexivity|]. eexists.
       split; [by rewrite <- !app_assoc|]. by repeat constructor. }
  split; [reflexivity|]. eexists.
  split; [by rewrite <- !app_assoc|]. by repeat constructor.
Qed.
End NoCaching.

(** ** What a drill-down does besides the matrix cells *)

Section LoadView.
Context {colorscale : Type}.
Implicit Types (w : World colorscale) (req : Request).

(** [load_view] never writes to the store and never changes the panel
    state, whatever the request is and whether it completes or raises. *)
Theorem load_view_frame req w :
  let w' := (load_view req w).2 in
  store w' = store w ∧ st_view w' = st_view w ∧ st_missing w' = st_missing w.
Proof.
  cbv zeta. unfold load_view.
  destruct (bool_decide (p_type (params req) = Some "clear")); [done|].
  unfold mbind, M_bind, get_view, get_missing, emit, lift, mret, M_ret.
  cbn [store st_view st_missing trace fst snd].
  destruct (get_evaluation_info (dataset req) _) as [info|e]; [|done].
  cbn [store st_view st_missing trace fst snd].
  destruct (nonempty _); cbn [store st_view st_missing trace fst snd].
  - destruct (get_evaluation_info (dataset req) _) as [info2|e]; [|done].
    cbn [store st_view st_missing trace fst snd].
    destruct (if bool_decide (type_ (config info) = "classification")
              then _ else _) as [[v|]|e]; done.
  - destruct (if bool_decide (type_ (config info) = "classification")
              then _ else _) as [[v|]|e]; done.
Qed.

(** [load_view] as a function of the predicate it computes. *)
Lemma load_view_run req w (info : EvaluationInfo)
    (res : result (option View)) :
  p_type (params req) ≠ Some "clear" →
  get_evaluation_info (dataset req) (view_key req w) = Ok info →
  compare_resolves req w →
  (∀ g2 p2,
     drill_down info (view_key req w) g2 p2 (label_root (dataset req))
       (default "(none)" (st_missing w)) (p_type (params req))
       (o_x (p_options (params req))) (o_y (p_options (params req)))
       (o_field (p_options (params req))) = res) →
  load_view req w
  = match res with
    | Ok (Some v) => (Ok (), with_events w (view_lookups req w ++ [SetView v]))
    | Ok None => (Ok (), with_events w (view_lookups req w))
    | Raise e => (Raise e, with_events w (view_lookups req w))
    end.
Proof.
  intros Hclear Hinfo Hcmp Hview. unfold load_view, view_lookups, with_events.
  rewrite (bool_decide_eq_false_2 _ Hclear).
  unfold view_key, drill_down in *.
  unfold mbind, M_bind, get_view, get_missing, emit, lift, mret, M_ret.
  cbn [store st_view st_missing trace fst snd]. rewrite Hinfo.
  cbn [store st_view st_missing trace fst snd].
  destruct (nonempty (v_compareKey (st_view w))) eqn:Hne.
  - destruct (Hcmp Hne) as [info2 Hinfo2]. rewrite Hinfo2.
    cbn [store st_view st_missing trace fst snd]. rewrite Hview.
    destruct res as [[v|]|e]; cbn [trace]; by rewrite <- ?app_assoc.
  - cbn [store st_view st_missing trace fst snd]. rewrite Hview.
    destruct res as [[v|]|e]; cbn [trace]; by rewrite <- ?app_assoc.
Qed.

(** For an evaluation that is neither a classification nor a detection (a
    segmentation, say), and for a view type other than class, matrix and
    field, [load_view] completes after its lookups without setting or
    clearing any view. *)
Theorem load_view_noop req w (info : EvaluationInfo) :
  p_type (params req) ≠ Some "clear" →
  get_evaluation_info (dataset req) (view_key req w) = Ok info →
  compare_resolves req w →
  type_ (config info) ∉ ["classification"; "detection"]
  ∨ p_type (params req) ∉ [Some "class"; Some "matrix"; Some "field"] →
  ∃ w' evs,
    load_view req w = (Ok (), w')
    ∧ emitted w w' evs
    ∧ Forall (λ e, is_view_change e = false) evs.
Proof.
  intros Hclear Hinfo Hcmp Hside.
  rewrite (load_view_run req w info (Ok None) Hclear Hinfo Hcmp).
  - eexists _, _. split; [reflexivity|]. split; [reflexivity|].
    unfold view_lookups. destruct (nonempty _); by repeat constructor.
  - intros g2 p2. unfold drill_down, classification_view, detection_view.
    destruct Hside as [Hty|Hvt].
    + rewrite !not_elem_of_cons in Hty. destruct Hty as (Hc & Hd & _).
      by rewrite (bool_decide_eq_false_2 _ Hc), (bool_decide_eq_false_2 _ Hd).
    + rewrite !not_elem_of_cons in Hvt. destruct Hvt as (H1 & H2 & H3 & _).
      rewrite (bool_decide_eq_false_2 _ H1), (bool_decide_eq_false_2 _ H2),
        (bool_decide_eq_false_2 _ H3).
      by repeat destruct (bool_decide _).
Qed.

(** For a binary classification a field drill-down matches the samples
    whose evaluation field equals the upper-cased field name; without a
    field name the request raises [AttributeError] and sets no view.  For
    any other classification the field name is compared as it is. *)
Theorem classification_field_drill_down req w (info : EvaluationInfo) :
  p_type (params req) = Some "field" →
  get_evaluation_info (dataset req) (view_key req w) = Ok info →
  type_ (config info) = "classification" →
  compare_resolves req w →
  let field := o_field (p_options (params req)) in
  let column := F (Some (fmt (view_key req w))) in
  (method (config info) = Some "binary" →
   (∀ f, field = Some f → sets_view req w [Match (Eq column (Some (upper f)))])
   ∧ (field = None →
      load_view req w
      = (Raise AttributeError, with_events w (view_lookups req w))))
  ∧ (method (config info) ≠ Some "binary" →
     sets_view req w [Match (Eq column field)]).
Proof.
  intros Hvt Hinfo Hty Hcmp field column.
  assert (p_type (params req) ≠ Some "clear") as Hclear
    by (rewrite Hvt; discriminate).
  assert (∀ res,
            classification_view info (view_key req w) None None
              (Some "field") (o_x (p_options (params req)))
              (o_y (p_options (params req))) field = res →
            ∀ g2 p2,
              drill_down info (view_key req w) g2 p2 (label_root (dataset req))
                (default "(none)" (st_missing w)) (p_type (params req))
                (o_x (p_options (params req))) (o_y (p_options (params req)))
                (o_field (p_options (params req))) = res) as Hdrill.
  { intros res <- g2 p2. unfold drill_down.
    by rewrite (bool_decide_eq_true_2 _ Hty), Hvt. }
  assert (∀ v, load_view req w
               = (Ok (), with_events w (view_lookups req w ++ [SetView v])) →
               sets_view req w v) as Hsets.
  { intros v Hrun. eexists. split; [exact Hrun|]. cbn [with_events trace].
    rewrite app_assoc. apply last_snoc. }
  split; [intros Hbin; split|intros Hbin].
  - intros f Hf. apply Hsets.
    apply (load_view_run req w info (Ok (Some _)) Hclear Hinfo Hcmp), Hdrill.
    unfold classification_view.
    rewrite (bool_decide_eq_true_2 _ Hbin), Hf. reflexivity.
  - intros Hf.
    apply (load_view_run req w info (Raise AttributeError) Hclear Hinfo Hcmp),
      Hdrill.
    unfold classification_view.
    rewrite (bool_decide_eq_true_2 _ Hbin), Hf. reflexivity.
  - apply Hsets.
    apply (load_view_run req w info (Ok (Some _)) Hclear Hinfo Hcmp), Hdrill.
    unfold classification_view.
    rewrite (bool_decide_eq_false_2 _ Hbin). reflexivity.
Qed.
End LoadView.

(** A matrix click on the panel showing a regression run sets no view. *)
Lemma load_view_noop_regression :
  let req := Examples.click_cell "cat" "dog" in
  let w := Examples.world "eval_reg" "id_reg" Examples.empty_store in
  let info := Examples.cfg "regression" None in
  p_type (params req) ≠ Some "clear"
  ∧ get_evaluation_info (dataset req) (view_key req w) = Ok info
  ∧ compare_resolves req w
  ∧ (type_ (config info) ∉ ["classification"; "detection"])
  ∧ ∃ w' evs,
      load_view req w = (Ok (), w')
      ∧ emitted w w' evs
      ∧ Forall (λ e, is_view_change e = false) evs.
Proof.
  intros req w info.
  assert (p_type (params req) ≠ Some "clear") as Hclear by discriminate.
  assert (compare_resolves req w) as Hcmp by (intros Hne; discriminate Hne).
  assert (type_ (config info) ∉ ["classification"; "detection"]) as Hty.
  { rewrite !not_elem_of_cons. repeat split; [discriminate..|].
    apply not_elem_of_nil. }
  split; [exact Hclear|]. split; [reflexivity|]. split; [exact Hcmp|].
  split; [exact Hty|].
  exact (load_view_noop req w info Hclear eq_refl Hcmp (or_introl Hty)).
Defined.

(** A click on the field "tp" of a binary classification matches the
    samples whose evaluation field is "TP". *)
Lemma classification_field_drill_down_binary :
  let req := FieldExamples.click_field (Some "tp") in
  let w := Examples.world "eval_a" "id_a" Examples.empty_store in
  p_type (params req) = Some "field"
  ∧ get_evaluation_info (dataset req) (view_key req w) = Ok Examples.eval_a_info
  ∧ type_ (config Examples.eval_a_info) = "classification"
  ∧ compare_resolves req w
  ∧ method (config Examples.eval_a_info) = Some "binary"
  ∧ sets_view req w [Match (Eq (F (Some "eval_a")) (Some "TP"))].
Proof.
  intros req w.
  assert (compare_resolves req w) as Hcmp by (intros Hne; discriminate Hne).
  do 3 (split; [reflexivity|]). split; [exact Hcmp|]. split; [reflexivity|].
  exact (proj1 (proj1 (classification_field_drill_down req w
                         Examples.eval_a_info eq_refl eq_refl eq_refl Hcmp)
                  eq_refl) "tp" eq_refl).
Defined.

(** ** The sentinel of a drill-down after a cache hit *)

(** C7 (the code at the failing input): the detection run uses the
    sentinel "bg".  In the session that computes the bundle,
    [load_evaluation] copies the sentinel into the panel state and a click
    on the cell (dog, bg) selects the false positives of dog.  In a panel
    opened afterwards on the same store, [load_evaluation] publishes the
    cached bundle without touching the dataset or the "missing" state, so
    [load_view] compares with "(none)": the same click now selects the
    samples with both a ground-truth label bg and a predicted label dog,
    not the false positives. *)
Theorem matrix_drill_down_stale_sentinel :
  let click := SentinelExamples.click_cell "dog" "bg" in
  let w1 :=
    (SentinelExamples.load (SentinelExamples.opened Examples.empty_store)).2 in
  let w2 := (SentinelExamples.load (SentinelExamples.opened (store w1))).2 in
  get_evaluation_info (dataset click) (Some "eval_bg") = Ok Examples.det_info
  ∧ type_ (config Examples.det_info) = "detection"
  ∧ load_evaluation_results (dataset click) (Some "eval_bg")
    = Ok SentinelExamples.det_bg
  ∧ missing SentinelExamples.det_bg = "bg"
  ∧ SentinelExamples.load (SentinelExamples.opened Examples.empty_store)
    = (Ok (), w1)
  ∧ st_missing w1 = Some "bg"
  ∧ sets_view click w1 (SentinelExamples.false_positives "dog")
  ∧ SentinelExamples.load (SentinelExamples.opened (store w1)) = (Ok (), w2)
  ∧ Forall (λ e, is_dataset_call e = false) (trace w2)
  ∧ st_missing w2 = None
  ∧ sets_view click w2 (SentinelExamples.both_present "dog" "bg")
  ∧ ¬ sets_view click w2 (SentinelExamples.false_positives "dog").
Proof.
  intros click.
  assert (type_ (config Examples.det_info) ∈ SUPPORTED_EVALUATION_TYPES)
    as Hty by (right; left).
  assert (∃ pcm, get_per_class_metrics Examples.det_info
                   SentinelExamples.det_bg = Ok pcm)
    as [pcm Hpcm] by (eexists; vm_compute; reflexivity).
  destruct (load_evaluation_completes (λ _ _, ()) (λ _ _ _, None)
              SentinelExamples.load_request
              (SentinelExamples.opened Examples.empty_store)
              Examples.det_info SentinelExamples.det_bg pcm
              (Some 1, Some 1, Some 0)
              eq_refl eq_refl Hty eq_refl Hpcm eq_refl) as [v1 Hv1].
  intros w1.
  assert (load_evaluation (λ _ _, ()) true (λ _ _ _, None)
            SentinelExamples.load_request
            (SentinelExamples.opened Examples.empty_store) = (Ok (), w1))
    as Hrun1 by (unfold w1, SentinelExamples.load; rewrite Hv1; reflexivity).
  destruct (load_evaluation_computed (λ _ _, ()) (λ _ _ _, None)
              SentinelExamples.load_request
              (SentinelExamples.opened Examples.empty_store) w1
              Examples.det_info eq_refl eq_refl Hty Hrun1)
    as (r & d & wp & Hres & Hview & Hmissing & _ & Hacc & _).
  assert (Ok SentinelExamples.det_bg = Ok r) as [= <-] by exact Hres.
  destruct (Hacc eq_refl) as (Hcache & _).
  assert (cache (store w1) !! Some "id_bg" = Some d) as Hhit
    by (rewrite Hcache; apply lookup_insert_eq).
  pose proof (load_evaluation_cached (λ _ _, ()) (λ _ _ _, None)
                SentinelExamples.load_request
                (SentinelExamples.opened (store w1)) d Hhit) as Hrun2.
  intros w2.
  assert (SentinelExamples.load (SentinelExamples.opened (store w1))
          = (Ok (), w2)) as Hrun2'
    by (unfold w2, SentinelExamples.load; rewrite Hrun2; reflexivity).
  assert (st_view w2 = st_view (SentinelExamples.opened Examples.empty_store)
          ∧ st_missing w2 = None
          ∧ Forall (λ e, is_dataset_call e = false) (trace w2))
    as (Hview2 & Hmissing2 & Htrace2).
  { unfold w2, SentinelExamples.load. rewrite Hrun2.
    do 2 (split; [reflexivity|]). by repeat constructor. }
  assert (compare_resolves click w1) as Hcmp1.
  { unfold compare_resolves. rewrite Hview. intros Hne. discriminate Hne. }
  assert (compare_resolves click w2) as Hcmp2.
  { unfold compare_resolves. rewrite Hview2. intros Hne. discriminate Hne. }
  assert (sets_view click w2 (SentinelExamples.both_present "dog" "bg"))
    as Hsets2.
  { apply (load_view_detection click w2 Examples.det_info);
      [discriminate| |reflexivity|exact Hcmp2|].
    - unfold view_key. rewrite Hview2. reflexivity.
    - intros g2 p2. unfold view_key. rewrite Hview2, Hmissing2. reflexivity. }
  do 4 (split; [reflexivity|]). split; [exact Hrun1|].
  split; [exact Hmissing|]. split.
  { apply (load_view_detection click w1 Examples.det_info);
      [discriminate| |reflexivity|exact Hcmp1|].
    - unfold view_key. rewrite Hview. reflexivity.
    - intros g2 p2. unfold view_key. rewrite Hview, Hmissing. reflexivity. }
  split; [exact Hrun2'|]. split; [exact Htrace2|].
  split; [exact Hmissing2|]. split; [exact Hsets2|].
  intros (w' & Hrun & Hlast). destruct Hsets2 as (w'' & Hrun' & Hlast').
  rewrite Hrun' in Hrun. injection Hrun as <-.
  rewrite Hlast' in Hlast. discriminate Hlast.
Qed.
